(** * run-mythril.py: the Mythril batch driver

    A shallow embedding of [src/run-mythril.py] and the properties of its
    per-contract analysis, its result classification and its report.

    The script is sequential glue around three pieces of the outside world:
    the artifact files it reads, the [myth] binary it runs, and the files it
    writes.  The first two are read-only inputs of a run and are gathered in
    a record [Env]; the written files are the mutable state threaded through
    the code; everything the script prints or asks of the operating system is
    recorded as a list of events. *)

From Stdlib Require Import ZArith QArith String Ascii List Lia.
From stdpp Require Import base option list gmap strings pretty.

Set Warnings "-register-all".
Set Default Proof Using "Type".

Open Scope string_scope.

(** ** Python strings *)

Module Str.

(** The newline character of the Python literals ["\n"]. *)
Definition nl : string := String "010" EmptyString.

(** [c * n] for a one-character string. *)
Fixpoint repeat (c : ascii) (n : nat) : string :=
  match n with
  | O => EmptyString
  | S n' => String c (repeat c n')
  end.

(** ['='*60] *)
Definition rule : string := repeat "=" 60.
Global Arguments rule : simpl never.

(** [needle in hay] on Python strings. *)
Fixpoint contains (needle hay : string) : bool :=
  String.prefix needle hay
  || match hay with
     | EmptyString => false
     | String _ rest => contains needle rest
     end.

(** A byte of the form 10xxxxxx continues a UTF-8 encoded code point. *)
Definition continuation (c : ascii) : bool :=
  match c with
  | Ascii _ _ _ _ _ _ b6 b7 => b7 && negb b6
  end.

(** [len(s)]: Python counts code points, the embedding stores UTF-8. *)
Fixpoint len (s : string) : nat :=
  match s with
  | EmptyString => O
  | String c rest => (if continuation c then 0 else 1) + len rest
  end.

(** The format spec [{s:30s}]: left-aligned, padded with spaces. *)
Definition ljust (width : nat) (s : string) : string :=
  s ++ repeat " " (width - len s).

End Str.

(** ** Python values

    What [json.load] can return, which is also what the fields of an
    artifact can hold. A float is kept as its IEEE-754 binary64 bit
    pattern; only its truth value matters here. *)

Inductive pyval : Type :=
| PyNone
| PyBool (b : bool)
| PyInt (z : Z)
| PyFloat (bits : Z)
| PyStr (s : string)
| PyList (l : list pyval)
| PyDict (d : gmap string pyval).

(** [bool(v)] *)
Definition truthy (v : pyval) : bool :=
  match v with
  | PyNone => false
  | PyBool b => b
  | PyInt z => negb (z =? 0)%Z
  | PyFloat bits => negb (Z.land bits (2 ^ 63 - 1) =? 0)%Z
  | PyStr s => negb (s =? "")
  | PyList l => match l with [] => false | _ => true end
  | PyDict d => negb (bool_decide (d = ∅))
  end.

(** [v == s] for a string literal [s]. *)
Definition eq_str (v : pyval) (s : string) : bool :=
  match v with
  | PyStr s' => s' =? s
  | _ => false
  end.

(** [type(v).__name__] *)
Definition type_name (v : pyval) : string :=
  match v with
  | PyNone => "NoneType"
  | PyBool _ => "bool"
  | PyInt _ => "int"
  | PyFloat _ => "float"
  | PyStr _ => "str"
  | PyList _ => "list"
  | PyDict _ => "dict"
  end.

(** ** Exceptions *)

Inductive exn_class : Type :=
| TimeoutExpired
| FileNotFoundError
| PermissionError
| TypeError
| AttributeError
| OtherException (name : string).

(** An exception object: its class and [str(e)]. Only subclasses of
    [Exception] are modelled. *)
Record exn : Type := Exn { exn_cls : exn_class; exn_msg : string }.

(** ** Events *)

Inductive event : Type :=
| EPrint (line : string)            (* print(line) *)
| EOpenW (path : string)            (* open(path, 'w') *)
| EWrite (path : string) (s : string) (* f.write(s) *)
| ERemove (path : string)           (* os.remove(path) *)
| ERun (cmd : list pyval)           (* subprocess.run(cmd, ...) *)
| EKill (cmd : list pyval).         (* the child is killed on timeout *)

(** ** The monad of the script: written files, events, exceptions *)

Record Run (A : Type) : Type := MkRun {
  value : exn + A;                    (* raised exception or result *)
  files : gmap string string;         (* written files afterwards *)
  emitted : list event                (* events, oldest first *)
}.
Arguments MkRun {A}.
Arguments value {A}.
Arguments files {A}.
Arguments emitted {A}.

Definition M (A : Type) : Type := gmap string string -> Run A.

Definition ret {A} (a : A) : M A := fun fs => MkRun (inr a) fs [].

Definition raise {A} (e : exn) : M A := fun fs => MkRun (inl e) fs [].

Definition bind {A B} (m : M A) (k : A -> M B) : M B :=
  fun fs =>
    let r := m fs in
    match value r with
    | inl e => MkRun (inl e) (files r) (emitted r)
    | inr a =>
        let r' := k a (files r) in
        MkRun (value r') (files r') (emitted r ++ emitted r')
    end.

Declare Scope py_scope.
Delimit Scope py_scope with py.
Notation "x <- m ;; k" := (bind m (fun x => k))
  (at level 100, m at next level, right associativity) : py_scope.
Notation "m ;; k" := (bind m (fun _ => k))
  (at level 100, right associativity) : py_scope.
Open Scope py_scope.

Definition emit (e : event) : M unit := fun fs => MkRun (inr tt) fs [e].

Definition print (line : string) : M unit := emit (EPrint line).

(** [try: body except ...: handler]; a handler that answers [None] does not
    match and the exception propagates. *)
Definition try_except {A} (body : M A) (handler : exn -> option (M A)) : M A :=
  fun fs =>
    let r := body fs in
    match value r with
    | inr _ => r
    | inl e =>
        match handler e with
        | None => r
        | Some h =>
            let r' := h (files r) in
            MkRun (value r') (files r') (emitted r ++ emitted r')
        end
    end.

(** [try: body finally: cleanup]: the cleanup runs on every exit of the
    body; the body's result or exception stands unless the cleanup raises. *)
Definition try_finally {A} (body : M A) (cleanup : M unit) : M A :=
  fun fs =>
    let r := body fs in
    let c := cleanup (files r) in
    MkRun (match value c with inl e => inl e | inr _ => value r end)
          (files c) (emitted r ++ emitted c).

(** *** File operations *)

(** [os.path.exists(path)] on the written files. *)
Definition path_exists (path : string) : M bool :=
  fun fs => MkRun (inr (bool_decide (is_Some (fs !! path)))) fs [].

(** [open(path, 'w')]: creates or truncates. *)
Definition open_w (path : string) : M unit :=
  fun fs => MkRun (inr tt) (<[path := ""]> fs) [EOpenW path].

(** [f.write(v)] on a file opened for writing: appends a string, raises
    [TypeError] on anything else. *)
Definition write (path : string) (v : pyval) : M unit :=
  match v with
  | PyStr s =>
      fun fs => MkRun (inr tt) (<[path := default "" (fs !! path) ++ s]> fs)
                      [EWrite path s]
  | _ => raise (Exn TypeError
                  ("write() argument must be str, not " ++ type_name v))
  end.

(** [os.remove(path)] *)
Definition remove (path : string) : M unit :=
  fun fs => MkRun (inr tt) (delete path fs) [ERemove path].

(** ** The outside world of one run *)

(** What the [myth] child process does when it is started. *)
Inductive behaviour : Type :=
| Exits (elapsed : Q) (stdout stderr : string) (returncode : Z)
    (* it ends by itself after [elapsed] seconds *)
| Hangs
    (* it never ends by itself *)
| Fails (e : exn)
    (* there is no child: [subprocess.run] raises [e] *).

Record Env : Type := MkEnv {
  (* what [open] and [json.load] give for a path: nothing when the path does
     not exist, an exception, or the loaded document *)
  artifacts : gmap string (exn + pyval);
  (* the analyzer: from the command line and the files it finds, how it
     behaves and the files it leaves *)
  tool : list pyval -> gmap string string -> behaviour * gmap string string
}.

(** ** Outcomes

    [analyze_contract] returns [None] or a string; each of its [return]
    statements is tagged here with the outcome it stands for, and [returned]
    gives back the Python value of that statement. *)

Inductive Outcome : Type :=
| NotFound                      (* line 32 *)
| ReadError (e : exn)           (* line 40 *)
| EmptyBytecode                 (* line 48 *)
| IssuesFound (text : string)   (* line 82 *)
| Clean                         (* line 85 *)
| NeedsReview (text : string)   (* line 88 *)
| Timeout                       (* line 92 *)
| ToolMissing                   (* line 96 *)
| RuntimeError (e : exn).       (* line 99 *)

Definition returned (o : Outcome) : option string :=
  match o with
  | NotFound | ReadError _ | EmptyBytecode | ToolMissing | RuntimeError _ => None
  | IssuesFound text | NeedsReview text => Some text
  | Clean => Some "No issues found"
  | Timeout => Some "Timeout"
  end.

(** ** The script *)

(** [CONTRACTS] *)
Definition CONTRACTS : list string :=
  ["MOEToken"; "DepositContract"; "VestingWalletFactory";
   "StageBasedVestingWallet"].

(** [artifact.get(key, default)]; only a dict has the method. *)
Definition py_get (artifact : pyval) (key : string) (dflt : pyval) : M pyval :=
  match artifact with
  | PyDict d => ret (default dflt (d !! key))
  | v => raise (Exn AttributeError
                  ("'" ++ type_name v ++ "' object has no attribute 'get'"))
  end.

(** [sep.join(items)], from item number [i] on. *)
Fixpoint py_join_from (i : nat) (sep : string) (items : list pyval) : M string :=
  match items with
  | [] => ret ""
  | PyStr s :: rest =>
      match rest with
      | [] => ret s
      | _ => t <- py_join_from (S i) sep rest ;; ret (s ++ sep ++ t)
      end
  | v :: _ => raise (Exn TypeError
                       ("sequence item " ++ pretty i
                        ++ ": expected str instance, "
                        ++ type_name v ++ " found"))
  end.

Definition py_join : string -> list pyval -> M string := py_join_from 0.

Definition artifact_path (contract_name : string) : string :=
  "artifacts/contracts/" ++ contract_name ++ ".sol/" ++ contract_name ++ ".json".

Definition temp_file (contract_name : string) : string :=
  "/tmp/" ++ contract_name ++ "_bytecode.bin".

(** Lines 58-65: the command line. *)
Definition command (bytecode deployed_bytecode : pyval) : list pyval :=
  [ PyStr "myth";
    PyStr "analyze";
    PyStr "--bin-runtime";
    (if truthy deployed_bytecode && negb (eq_str deployed_bytecode "0x")
     then deployed_bytecode else bytecode);
    PyStr "--execution-timeout"; PyStr "60";
    PyStr "--max-depth"; PyStr "12";
    PyStr "--solver-timeout"; PyStr "10000" ].

(** Lines 76-88: the classification of a completed run. *)
Definition classify (output : string) (returncode : Z) : M Outcome :=
  if Str.contains "SWC" output || Str.contains "Issue" output then
    print (Str.nl ++ "⚠️  发现安全问题:" ++ Str.nl) ;;
    print output ;;
    ret (IssuesFound output)
  else if Str.contains "No issues" output || (returncode =? 0)%Z then
    print "✅ 未发现安全问题" ;;
    ret Clean
  else
    print ("⚠️  分析完成，输出:" ++ Str.nl ++ output) ;;
    ret (NeedsReview output).

Section Script.

Variable env : Env.

(** [subprocess.run(cmd, capture_output=True, text=True, timeout=t)], as
    the library documents it: the child's output and exit status when it
    ends in time; otherwise the child is killed and [TimeoutExpired] is
    raised (the handler of the script does not look at its message). *)
Definition subprocess_run (cmd : list pyval) (timeout : Q)
  : M (string * string * Z) :=
  fun fs =>
    let '(b, fs') := tool env cmd fs in
    match b with
    | Fails e => MkRun (inl e) fs' [ERun cmd]
    | Hangs => MkRun (inl (Exn TimeoutExpired "timed out")) fs' [ERun cmd; EKill cmd]
    | Exits elapsed stdout stderr returncode =>
        if Qle_bool elapsed timeout
        then MkRun (inr (stdout, stderr, returncode)) fs' [ERun cmd]
        else MkRun (inl (Exn TimeoutExpired "timed out")) fs' [ERun cmd; EKill cmd]
    end.

(** Lines 56-99: the [try] block with its three handlers. *)
Definition invoke (bytecode deployed_bytecode : pyval) : M Outcome :=
  try_except
    (let cmd := command bytecode deployed_bytecode in
     shown <- py_join " " (firstn 3 cmd) ;;
     print ("执行命令: " ++ shown ++ " ...") ;;
     result <- subprocess_run cmd 90 ;;
     let '(stdout, stderr, returncode) := result in
     let output := stdout ++ stderr in
     classify output returncode)
    (fun e =>
       Some match exn_cls e with
            | TimeoutExpired =>
                print "⏱️  分析超时（90秒）" ;;
                ret Timeout
            | FileNotFoundError =>
                print "❌ Mythril未安装或未在PATH中" ;;
                print "请运行: pip install mythril" ;;
                ret ToolMissing
            | _ =>
                print ("❌ 运行Mythril时出错: " ++ exn_msg e) ;;
                ret (RuntimeError e)
            end).

(** Lines 100-103: the [finally] block. *)
Definition cleanup (path : string) : M unit :=
  there <- path_exists path ;;
  if there : bool then remove path else ret tt.

Definition analyze_contract (contract_name : string) : M Outcome :=
  print (Str.nl ++ Str.rule) ;;
  print ("分析合约: " ++ contract_name) ;;
  print (Str.rule ++ Str.nl) ;;
  match artifacts env !! artifact_path contract_name with
  | None =>
      print ("❌ 未找到artifact: " ++ artifact_path contract_name) ;;
      ret NotFound
  | Some (inl e) =>
      print ("❌ 读取artifact失败: " ++ exn_msg e) ;;
      ret (ReadError e)
  | Some (inr artifact) =>
      bytecode <- py_get artifact "bytecode" (PyStr "") ;;
      deployed_bytecode <- py_get artifact "deployedBytecode" (PyStr "") ;;
      if negb (truthy bytecode) || eq_str bytecode "0x" then
        print "❌ 未找到bytecode" ;;
        ret EmptyBytecode
      else
        open_w (temp_file contract_name) ;;
        write (temp_file contract_name) bytecode ;;
        try_finally (invoke bytecode deployed_bytecode)
                    (cleanup (temp_file contract_name))
  end.

(** *** [main] *)

(** [results[contract] = result] on an insertion-ordered dict. *)
Fixpoint dict_set (k : string) (v : option string)
         (d : list (string * option string)) : list (string * option string) :=
  match d with
  | [] => [(k, v)]
  | (k', v') :: d' =>
      if k' =? k then (k, v) :: d' else (k', v') :: dict_set k v d'
  end.

(** Lines 113-115 *)
Fixpoint analyze_all (contracts : list string)
         (results : list (string * option string))
  : M (list (string * option string)) :=
  match contracts with
  | [] => ret results
  | contract :: rest =>
      result <- analyze_contract contract ;;
      analyze_all rest (dict_set contract (returned result) results)
  end.

(** Lines 123-132 *)
Definition status (result : option string) : string :=
  match result with
  | None => "❌ 失败"
  | Some r =>
      if r =? "Timeout" then "⏱️  超时"
      else if r =? "No issues found" then "✅ 安全"
      else if Str.contains "SWC" r || Str.contains "Issue" r
           then "⚠️  发现问题"
           else "⚠️  需要人工审查"
  end.

Definition summary_line (contract : string) (result : option string) : string :=
  Str.ljust 30 contract ++ " " ++ status result.

(** Lines 122-134 *)
Fixpoint summary (results : list (string * option string)) : M unit :=
  match results with
  | [] => ret tt
  | (contract, result) :: rest =>
      print (summary_line contract result) ;;
      summary rest
  end.

Definition output_file : string := "mythril-analysis-results.txt".

(** Lines 147-150: the body of a section; [if result:] is the truth value
    of [None] or of a string. *)
Definition section_body (result : option string) : string :=
  match result with
  | Some r => if negb (r =? "") then r else "分析失败或未完成" ++ Str.nl
  | None => "分析失败或未完成" ++ Str.nl
  end.

(** Lines 142-152 *)
Fixpoint write_sections (results : list (string * option string)) : M unit :=
  match results with
  | [] => ret tt
  | (contract, result) :: rest =>
      write output_file (PyStr (Str.nl ++ Str.rule ++ Str.nl)) ;;
      write output_file (PyStr ("合约: " ++ contract ++ Str.nl)) ;;
      write output_file (PyStr (Str.rule ++ Str.nl ++ Str.nl)) ;;
      write output_file (PyStr (section_body result)) ;;
      write output_file (PyStr (Str.nl ++ Str.nl)) ;;
      write_sections rest
  end.

(** [main], over the list of contracts that the global [CONTRACTS] names. *)
Definition main_with (contracts : list string) : M unit :=
  print (Str.nl ++ Str.rule) ;;
  print "MoeGirls Project - Mythril 安全分析" ;;
  print Str.rule ;;
  results <- analyze_all contracts [] ;;
  print (Str.nl ++ Str.rule) ;;
  print "分析摘要" ;;
  print (Str.rule ++ Str.nl) ;;
  summary results ;;
  open_w output_file ;;
  write output_file (PyStr ("MoeGirls Project - Mythril 安全分析结果" ++ Str.nl)) ;;
  write output_file (PyStr (Str.rule ++ Str.nl ++ Str.nl)) ;;
  write_sections results ;;
  print (Str.nl ++ "✅ 完整报告已保存到: " ++ output_file).

Definition main : M unit := main_with CONTRACTS.

End Script.

(** ** Closed forms

    Pure descriptions of what the monadic code computes; the lemmas below
    prove that the code agrees with them. *)

(** The outcome that [classify] returns. *)
Definition classification (output : string) (returncode : Z) : Outcome :=
  if Str.contains "SWC" output || Str.contains "Issue" output
  then IssuesFound output
  else if Str.contains "No issues" output || (returncode =? 0)%Z
       then Clean
       else NeedsReview output.

(** The child outlives the ceiling of [timeout] seconds. *)
Definition exceeds (timeout : Q) (b : behaviour) : Prop :=
  match b with
  | Exits elapsed _ _ _ => (timeout < elapsed)%Q
  | Hangs => True
  | Fails _ => False
  end.

Definition killed (b : behaviour) : bool :=
  match b with
  | Exits elapsed _ _ _ => negb (Qle_bool elapsed 90)
  | Hangs => true
  | Fails _ => false
  end.

(** The outcome of [invoke] for a behaviour of the analyzer. *)
Definition verdict (b : behaviour) : Outcome :=
  match b with
  | Exits elapsed stdout stderr returncode =>
      if Qle_bool elapsed 90
      then classification (stdout ++ stderr) returncode
      else Timeout
  | Hangs => Timeout
  | Fails e =>
      match exn_cls e with
      | TimeoutExpired => Timeout
      | FileNotFoundError => ToolMissing
      | _ => RuntimeError e
      end
  end.

(** The line that only the handler of [FileNotFoundError] prints. *)
Definition tool_missing_line : string := "❌ Mythril未安装或未在PATH中".

(** What is printed on the branch that returns a given outcome. *)
Definition said (contract_name : string) (o : Outcome) : list event :=
  match o with
  | NotFound => [EPrint ("❌ 未找到artifact: " ++ artifact_path contract_name)]
  | ReadError e => [EPrint ("❌ 读取artifact失败: " ++ exn_msg e)]
  | EmptyBytecode => [EPrint "❌ 未找到bytecode"]
  | IssuesFound text =>
      [EPrint (Str.nl ++ "⚠️  发现安全问题:" ++ Str.nl); EPrint text]
  | Clean => [EPrint "✅ 未发现安全问题"]
  | NeedsReview text => [EPrint ("⚠️  分析完成，输出:" ++ Str.nl ++ text)]
  | Timeout => [EPrint "⏱️  分析超时（90秒）"]
  | ToolMissing => [EPrint tool_missing_line; EPrint "请运行: pip install mythril"]
  | RuntimeError e => [EPrint ("❌ 运行Mythril时出错: " ++ exn_msg e)]
  end.

(** The three lines that open the analysis of a contract. *)
Definition banner (contract_name : string) : list event :=
  [ EPrint (Str.nl ++ Str.rule);
    EPrint ("分析合约: " ++ contract_name);
    EPrint (Str.rule ++ Str.nl) ].

(** The events of [invoke]. *)
Definition invocation (cmd : list pyval) (b : behaviour) : list event :=
  EPrint "执行命令: myth analyze --bin-runtime ..."
  :: ERun cmd
  :: (if killed b then [EKill cmd] else []) ++ said "" (verdict b).

(** The command lines handed to [subprocess.run], oldest first. *)
Fixpoint runs (evs : list event) : list (list pyval) :=
  match evs with
  | [] => []
  | ERun cmd :: rest => cmd :: runs rest
  | _ :: rest => runs rest
  end.

(** The children killed, oldest first. *)
Fixpoint kills (evs : list event) : list (list pyval) :=
  match evs with
  | [] => []
  | EKill cmd :: rest => cmd :: kills rest
  | _ :: rest => kills rest
  end.

(** The lines printed, oldest first. *)
Fixpoint printed (evs : list event) : list string :=
  match evs with
  | [] => []
  | EPrint line :: rest => line :: printed rest
  | _ :: rest => printed rest
  end.

(** The artifact of a contract, when it loads, is a JSON object whose
    [bytecode] is a string or has no truth (absent, null, zero, empty). *)
Definition descriptor (env : Env) (contract_name : string) : Prop :=
  match artifacts env !! artifact_path contract_name with
  | Some (inr (PyDict d)) =>
      match d !! "bytecode" with
      | None | Some (PyStr _) => True
      | Some v => truthy v = false
      end
  | Some (inr _) => False
  | Some (inl _) | None => True
  end.

(** One section of the report. *)
Definition section_text (entry : string * option string) : string :=
  (Str.nl ++ Str.rule ++ Str.nl)
  ++ ("合约: " ++ entry.1 ++ Str.nl)
  ++ (Str.rule ++ Str.nl ++ Str.nl)
  ++ section_body entry.2
  ++ (Str.nl ++ Str.nl).

(** The sections of the report, one after the other. *)
Fixpoint sections_text (results : list (string * option string)) : string :=
  match results with
  | [] => ""
  | entry :: rest => section_text entry ++ sections_text rest
  end.

(** The whole report. *)
Definition report_text (results : list (string * option string)) : string :=
  ("MoeGirls Project - Mythril 安全分析结果" ++ Str.nl)
  ++ (Str.rule ++ Str.nl ++ Str.nl)
  ++ sections_text results.

(** The writes that make one section, and all of them. *)
Definition section_writes (entry : string * option string) : list event :=
  [ EWrite output_file (Str.nl ++ Str.rule ++ Str.nl);
    EWrite output_file ("合约: " ++ entry.1 ++ Str.nl);
    EWrite output_file (Str.rule ++ Str.nl ++ Str.nl);
    EWrite output_file (section_body entry.2);
    EWrite output_file (Str.nl ++ Str.nl) ].

Fixpoint sections_writes (results : list (string * option string)) : list event :=
  match results with
  | [] => []
  | entry :: rest => section_writes entry ++ sections_writes rest
  end.

(** The events of the report: the file is opened anew, then written. *)
Definition report_writes (results : list (string * option string)) : list event :=
  [ EOpenW output_file;
    EWrite output_file ("MoeGirls Project - Mythril 安全分析结果" ++ Str.nl);
    EWrite output_file (Str.rule ++ Str.nl ++ Str.nl) ]
  ++ sections_writes results.

(** The last line of a run. *)
Definition closing_line : string := Str.nl ++ "✅ 完整报告已保存到: " ++ output_file.

(** The results that [analyze_all] accumulates from a list of outcomes. *)
Fixpoint record_all (contracts : list string) (outcomes : list Outcome)
         (results : list (string * option string))
  : list (string * option string) :=
  match contracts, outcomes with
  | contract :: contracts', o :: outcomes' =>
      record_all contracts' outcomes' (dict_set contract (returned o) results)
  | _, _ => results
  end.

(** The outcomes of the contracts of a run, as long as the analyses return. *)
Fixpoint outcomes_of (env : Env) (contracts : list string)
         (fs : gmap string string) : list Outcome :=
  match contracts with
  | [] => []
  | contract :: rest =>
      let r := analyze_contract env contract fs in
      match value r with
      | inr o => o :: outcomes_of env rest (files r)
      | inl _ => []
      end
  end.

(** The value that follows a flag on a command line. *)
Fixpoint after_flag (flag : string) (cmd : list pyval) : option pyval :=
  match cmd with
  | [] => None
  | v :: rest =>
      match v, rest with
      | PyStr s, next :: _ => if s =? flag then Some next else after_flag flag rest
      | _, _ => after_flag flag rest
      end
  end.


(** ** Concrete runs *)

Module Scenario.

(** An artifact with the two bytecode fields. *)
Definition artifact (bytecode deployed_bytecode : string) : pyval :=
  PyDict (<["bytecode" := PyStr bytecode]>
            (<["deployedBytecode" := PyStr deployed_bytecode]> ∅)).

(** A world where only [MOEToken] has an artifact and where the analyzer
    behaves in one way, leaving the files alone. *)
Definition world (a : pyval) (b : behaviour) : Env :=
  MkEnv (<[artifact_path "MOEToken" := inr a]> ∅) (fun _ fs => (b, fs)).

(** [myth] is not on the path. *)
Definition not_installed : behaviour :=
  Fails (Exn FileNotFoundError "[Errno 2] No such file or directory: 'myth'").

(** [myth] is there but may not be executed. *)
Definition not_executable : behaviour :=
  Fails (Exn PermissionError "[Errno 13] Permission denied: 'myth'").

(** [myth] dies at once, saying nothing, with exit status 1. *)
Definition silent_failure : behaviour := Exits 1 "" "" 1.

End Scenario.

(** ** The claims that fail, in the words of the specification *)


(** Two outcomes are told apart by the reporting of a run when the summary
    line or the report section of some contract differs between them. *)
Definition told_apart (o1 o2 : Outcome) : Prop :=
  exists contract,
    summary_line contract (returned o1) <> summary_line contract (returned o2)
    \/ section_text (contract, returned o1) <> section_text (contract, returned o2).



(** ** Files touched and statuses meant *)

(** The path that an event opens, writes or removes. *)
Definition touched (e : event) : option string :=
  match e with
  | EOpenW path | EWrite path _ | ERemove path => Some path
  | EPrint _ | ERun _ | EKill _ => None
  end.

(** The paths touched during some events, oldest first. *)
Definition paths (evs : list event) : list string := omap touched evs.

(** The status that the summary has for each kind of outcome (the
    branches of lines 123-132, read by what they are meant for). *)
Definition meant_status (o : Outcome) : string :=
  match o with
  | NotFound | ReadError _ | EmptyBytecode | ToolMissing | RuntimeError _ =>
      "❌ 失败"
  | Timeout => "⏱️  超时"
  | Clean => "✅ 安全"
  | IssuesFound _ => "⚠️  发现问题"
  | NeedsReview _ => "⚠️  需要人工审查"
  end.

(** The status that the summary shows: the one meant, but for a text to
    review that reads ["Timeout"]. *)
Definition shown_status (o : Outcome) : string :=
  match o with
  | NeedsReview text =>
      if text =? "Timeout" then meant_status Timeout else meant_status o
  | _ => meant_status o
  end.

(** More concrete runs. *)
Module Edge.

(** A world where the artifact of [MOEToken] exists but does not load. *)
Definition unreadable (e : exn) : Env :=
  MkEnv (<[artifact_path "MOEToken" := inl e]> ∅) (fun _ fs => (Hangs, fs)).

(** What [json.load] raises on an empty file. *)
Definition not_json : exn :=
  Exn (OtherException "JSONDecodeError")
      "Expecting value: line 1 column 1 (char 0)".

(** An artifact whose [bytecode] is any value. *)
Definition artifact_with (bytecode : pyval) : pyval :=
  PyDict (<["bytecode" := bytecode]> ∅).

(** An analyzer that removes the scratch file of [MOEToken] itself and
    ends at once without a word. *)
Definition tidy_world : Env :=
  MkEnv (<[artifact_path "MOEToken" := inr (Scenario.artifact "0x6080" "0x")]> ∅)
        (fun _ fs => (Exits 1 "" "" 0, delete (temp_file "MOEToken") fs)).

End Edge.
(** * Properties *)

(** ** Strings *)

Module StrFacts.

Lemma app_cons (x : ascii) (a b : string) :
  String x a ++ b = String x (a ++ b).
Proof. reflexivity. Qed.

Lemma app_assoc (a b c : string) : (a ++ b) ++ c = a ++ (b ++ c).
Proof.
  induction a as [|x a IH]; [reflexivity|].
  by rewrite !app_cons, IH.
Qed.

Lemma app_nil_r (a : string) : a ++ "" = a.
Proof.
  induction a as [|x a IH]; [reflexivity|].
  by rewrite app_cons, IH.
Qed.

Lemma prefix_iff (n h : string) :
  String.prefix n h = true <-> exists post, h = n ++ post.
Proof.
  revert h. induction n as [|c n IH]; intros h; simpl.
  - split; [intros _; exists h; reflexivity | intros _; by destruct h].
  - destruct h as [|c' h]; simpl.
    + split; [done | intros [post H]; discriminate H].
    + destruct (Ascii.ascii_dec c c') as [->|Hne].
      * rewrite IH. split; intros [post H]; exists post;
          [by rewrite H | by injection H].
      * split; [done | intros [post H]; injection H; intros; congruence].
Qed.

(** [Str.contains] decides the substring relation. *)
Lemma contains_iff (n h : string) :
  Str.contains n h = true <-> exists pre post, h = pre ++ n ++ post.
Proof.
  induction h as [|c h IH]; cbn [Str.contains].
  - rewrite orb_false_r, prefix_iff. split.
    + intros [post H]. by exists "", post.
    + intros [pre [post H]].
      destruct pre; simpl in H; [by exists post | discriminate H].
  - rewrite orb_true_iff, prefix_iff, IH. split.
    + intros [[post H] | [pre [post H]]].
      * by exists "", post.
      * exists (String c pre), post. simpl. by rewrite H.
    + intros [pre [post H]]. destruct pre as [|c' pre]; simpl in H.
      * left. by exists post.
      * right. exists pre, post. by injection H.
Qed.

End StrFacts.

(** ** Running the monad

    One lemma per combinator, so that a run is computed step by step. *)

Lemma bind_to {A B} (m : M A) (k : A -> M B) fs a fs1 ev1 v fs2 ev2 :
  m fs = MkRun (inr a) fs1 ev1 ->
  k a fs1 = MkRun v fs2 ev2 ->
  bind m k fs = MkRun v fs2 (ev1 ++ ev2).
Proof. intros Hm Hk. unfold bind. rewrite Hm. cbn. by rewrite Hk. Qed.

Lemma bind_raised {A B} (m : M A) (k : A -> M B) fs e fs1 ev1 :
  m fs = MkRun (inl e) fs1 ev1 ->
  bind m k fs = MkRun (inl e) fs1 ev1.
Proof. intros Hm. unfold bind. by rewrite Hm. Qed.

Lemma try_except_returned {A} (body : M A) handler fs a fs1 ev1 :
  body fs = MkRun (inr a) fs1 ev1 ->
  try_except body handler fs = MkRun (inr a) fs1 ev1.
Proof. intros Hb. unfold try_except. by rewrite Hb. Qed.

Lemma try_except_caught {A} (body : M A) handler fs e fs1 ev1 h v fs2 ev2 :
  body fs = MkRun (inl e) fs1 ev1 ->
  handler e = Some h ->
  h fs1 = MkRun v fs2 ev2 ->
  try_except body handler fs = MkRun v fs2 (ev1 ++ ev2).
Proof.
  intros Hb Hh Hr. unfold try_except. rewrite Hb. cbn. rewrite Hh. by rewrite Hr.
Qed.

Lemma try_finally_to {A} (body : M A) cleanup fs v fs1 ev1 fs2 ev2 :
  body fs = MkRun v fs1 ev1 ->
  cleanup fs1 = MkRun (inr tt) fs2 ev2 ->
  try_finally body cleanup fs = MkRun v fs2 (ev1 ++ ev2).
Proof. intros Hb Hc. unfold try_finally. rewrite Hb. cbn. by rewrite Hc. Qed.

Lemma bind_run {A B} (m : M A) (k : A -> M B) fs a fs1 evs :
  m fs = MkRun (inr a) fs1 evs ->
  bind m k fs
  = MkRun (value (k a fs1)) (files (k a fs1)) (evs ++ emitted (k a fs1)).
Proof. intros H. unfold bind. by rewrite H. Qed.

(** A [write] of a string appends to what the file holds. *)
Lemma write_run path (s prior : string) (fs : gmap string string) :
  fs !! path = Some prior ->
  write path (PyStr s) fs
  = MkRun (inr tt) (<[path := prior ++ s]> fs) [EWrite path s].
Proof. intros H. cbn. by rewrite H. Qed.

(** ** The code computes its closed forms *)

Lemma classify_run output returncode fs :
  classify output returncode fs
  = MkRun (inr (classification output returncode)) fs
          (said "" (classification output returncode)).
Proof.
  unfold classify, classification.
  destruct (_ || _); [reflexivity|].
  destruct (_ || _); reflexivity.
Qed.

Lemma subprocess_run_to env cmd fs :
  subprocess_run env cmd 90 fs
  = match (tool env cmd fs).1 with
    | Exits elapsed stdout stderr returncode =>
        if Qle_bool elapsed 90
        then MkRun (inr (stdout, stderr, returncode)) (tool env cmd fs).2 [ERun cmd]
        else MkRun (inl (Exn TimeoutExpired "timed out")) (tool env cmd fs).2
                   [ERun cmd; EKill cmd]
    | Hangs => MkRun (inl (Exn TimeoutExpired "timed out")) (tool env cmd fs).2
                     [ERun cmd; EKill cmd]
    | Fails e => MkRun (inl e) (tool env cmd fs).2 [ERun cmd]
    end.
Proof.
  unfold subprocess_run. destruct (tool env cmd fs) as [[elapsed out err rc| |e] fs'];
    reflexivity.
Qed.

Lemma invoke_run env bytecode deployed_bytecode fs :
  invoke env bytecode deployed_bytecode fs
  = let cmd := command bytecode deployed_bytecode in
    MkRun (inr (verdict (tool env cmd fs).1)) (tool env cmd fs).2
          (invocation cmd (tool env cmd fs).1).
Proof.
  cbn zeta. unfold invoke, invocation.
  set (cmd := command bytecode deployed_bytecode).
  pose proof (subprocess_run_to env cmd fs) as Hsub.
  destruct (tool env cmd fs).1 as [elapsed out err rc| |e] eqn:Hb; cbn [killed verdict].
  1: destruct (Qle_bool elapsed 90); cbn [negb].
  - etrans.
    { apply try_except_returned.
      eapply bind_to; [reflexivity|].
      eapply bind_to; [reflexivity|].
      eapply bind_to; [exact Hsub|].
      apply classify_run. }
    reflexivity.
  - etrans.
    { eapply try_except_caught;
        [ eapply bind_to; [reflexivity|];
          eapply bind_to; [reflexivity|];
          eapply bind_raised; exact Hsub
        | reflexivity | reflexivity ]. }
    reflexivity.
  - etrans.
    { eapply try_except_caught;
        [ eapply bind_to; [reflexivity|];
          eapply bind_to; [reflexivity|];
          eapply bind_raised; exact Hsub
        | reflexivity | reflexivity ]. }
    reflexivity.
  - destruct e as [cls msg].
    etrans.
    { eapply try_except_caught;
        [ eapply bind_to; [reflexivity|];
          eapply bind_to; [reflexivity|];
          eapply bind_raised; exact Hsub
        | reflexivity | ].
      cbn [exn_cls exn_msg].
        instantiate (1 := said "" (verdict (Fails (Exn cls msg)))).
        instantiate (1 := (tool env cmd fs).2).
        instantiate (1 := inr (verdict (Fails (Exn cls msg)))).
        destruct cls; reflexivity. }
    reflexivity.
Qed.

Section Analysis.

Variable env : Env.
Variable contract_name : string.

Lemma analyze_not_found fs :
  artifacts env !! artifact_path contract_name = None ->
  analyze_contract env contract_name fs
  = MkRun (inr NotFound) fs (banner contract_name ++ said contract_name NotFound).
Proof. intros H. unfold analyze_contract. rewrite H. reflexivity. Qed.

Lemma analyze_read_error e fs :
  artifacts env !! artifact_path contract_name = Some (inl e) ->
  analyze_contract env contract_name fs
  = MkRun (inr (ReadError e)) fs
          (banner contract_name ++ said contract_name (ReadError e)).
Proof. intros H. unfold analyze_contract. rewrite H. reflexivity. Qed.

Lemma analyze_empty d fs :
  artifacts env !! artifact_path contract_name = Some (inr (PyDict d)) ->
  (let bytecode := default (PyStr "") (d !! "bytecode") in
   negb (truthy bytecode) || eq_str bytecode "0x" = true) ->
  analyze_contract env contract_name fs
  = MkRun (inr EmptyBytecode) fs
          (banner contract_name ++ said contract_name EmptyBytecode).
Proof.
  intros H Hb. cbn zeta in Hb. unfold analyze_contract. rewrite H.
  etrans.
  { do 3 (eapply bind_to; [reflexivity|]).
    do 2 (eapply bind_to; [reflexivity|]).
    rewrite Hb. reflexivity. }
  reflexivity.
Qed.

(** The files once the scratch file is written. *)
Lemma scratch_written (path s : string) (fs : gmap string string) :
  <[path := "" ++ s]> (<[path := ""]> fs) = <[path := s]> fs.
Proof. by rewrite insert_insert_eq. Qed.

Lemma cleanup_run path (fs : gmap string string) :
  cleanup path fs
  = MkRun (inr tt) (delete path fs)
          (if bool_decide (is_Some (fs !! path)) then [ERemove path] else []).
Proof.
  unfold cleanup, bind, path_exists; cbn.
  case_bool_decide as H; cbn; [reflexivity|].
  rewrite delete_id; [reflexivity|].
  by apply eq_None_not_Some.
Qed.

Lemma analyze_invoked d bc fs :
  artifacts env !! artifact_path contract_name = Some (inr (PyDict d)) ->
  d !! "bytecode" = Some (PyStr bc) ->
  bc <> "" -> bc <> "0x" ->
  let tmp := temp_file contract_name in
  let cmd := command (PyStr bc) (default (PyStr "") (d !! "deployedBytecode")) in
  let answer := tool env cmd (<[tmp := bc]> fs) in
  analyze_contract env contract_name fs
  = MkRun (inr (verdict answer.1)) (delete tmp answer.2)
          (banner contract_name
           ++ [EOpenW tmp; EWrite tmp bc]
           ++ invocation cmd answer.1
           ++ (if bool_decide (is_Some (answer.2 !! tmp))
               then [ERemove tmp] else [])).
Proof.
  intros H Hb Hne H0x. cbn zeta.
  apply String.eqb_neq in Hne, H0x.
  unfold analyze_contract. rewrite H.
  etrans.
  { do 3 (eapply bind_to; [reflexivity|]).
    do 2 (eapply bind_to; [reflexivity|]).
    rewrite Hb.
    change (default (PyStr "") (Some (PyStr bc))) with (PyStr bc).
    cbn [truthy eq_str]. rewrite Hne, H0x. cbn [negb orb].
    eapply bind_to; [reflexivity|].
    eapply bind_to; [apply write_run, lookup_insert_eq|].
    rewrite scratch_written.
    eapply try_finally_to; [apply invoke_run | apply cleanup_run]. }
  reflexivity.
Qed.

End Analysis.

(** ** Events *)

Lemma printed_app (a b : list event) :
  printed (a ++ b) = (printed a ++ printed b)%list.
Proof.
  induction a as [|e a IH]; [reflexivity|].
  destruct e; cbn; by rewrite IH.
Qed.

Lemma runs_app (a b : list event) : runs (a ++ b) = (runs a ++ runs b)%list.
Proof.
  induction a as [|e a IH]; [reflexivity|].
  destruct e; cbn; by rewrite IH.
Qed.

Lemma kills_app (a b : list event) : kills (a ++ b) = (kills a ++ kills b)%list.
Proof.
  induction a as [|e a IH]; [reflexivity|].
  destruct e; cbn; by rewrite IH.
Qed.

Lemma runs_said contract_name o : runs (said contract_name o) = [].
Proof. by destruct o. Qed.

Lemma kills_said contract_name o : kills (said contract_name o) = [].
Proof. by destruct o. Qed.

Lemma runs_invocation cmd b : runs (invocation cmd b) = [cmd].
Proof.
  unfold invocation. cbn [runs]. rewrite runs_app, runs_said.
  by destruct (killed b).
Qed.

Lemma kills_invocation cmd b :
  kills (invocation cmd b) = if killed b then [cmd] else [].
Proof.
  unfold invocation. cbn [kills]. rewrite kills_app, kills_said.
  by destruct (killed b).
Qed.

Lemma printed_invocation cmd b :
  printed (invocation cmd b)
  = "执行命令: myth analyze --bin-runtime ..." :: printed (said "" (verdict b)).
Proof.
  unfold invocation. cbn [printed]. rewrite printed_app.
  by destruct (killed b).
Qed.

(** The events of the [finally] block hold no print, run or kill. *)
Lemma printed_removed (there : bool) path :
  printed (if there then [ERemove path] else []) = [].
Proof. by destruct there. Qed.

Lemma runs_removed (there : bool) path :
  runs (if there then [ERemove path] else []) = [].
Proof. by destruct there. Qed.

Lemma kills_removed (there : bool) path :
  kills (if there then [ERemove path] else []) = [].
Proof. by destruct there. Qed.

(** ** The analysis of one contract always returns on a descriptor *)

Lemma analyze_total env contract_name fs :
  descriptor env contract_name ->
  exists o fs' evs,
    analyze_contract env contract_name fs
    = MkRun (inr o) fs' (banner contract_name ++ evs).
Proof.
  unfold descriptor. intros Hd.
  destruct (artifacts env !! artifact_path contract_name)
    as [[e|artifact]|] eqn:Ha.
  - eexists _, _, _. by apply analyze_read_error.
  - destruct artifact as [| | | | |?|d]; try done.
    destruct (d !! "bytecode") as [v|] eqn:Hb.
    + destruct v as [| | | |bc| |].
      5: { destruct (String.eqb_spec bc "") as [->|Hne].
           { eexists _, _, _. eapply analyze_empty; [exact Ha|]. by rewrite Hb. }
           destruct (String.eqb_spec bc "0x") as [->|H0x].
           { eexists _, _, _. eapply analyze_empty; [exact Ha|]. by rewrite Hb. }
           eexists _, _, _. by eapply analyze_invoked. }
      all: eexists _, _, _; (eapply analyze_empty; [exact Ha|]);
        rewrite Hb; cbn in *; by rewrite ?Hd.
    + eexists _, _, _. eapply analyze_empty; [exact Ha|]. by rewrite Hb.
  - eexists _, _, _. by apply analyze_not_found.
Qed.

(** ** The loop over the contracts *)

Lemma analyze_all_step env contract rest results fs o fs1 evs :
  analyze_contract env contract fs = MkRun (inr o) fs1 evs ->
  analyze_all env (contract :: rest) results fs
  = let r := analyze_all env rest (dict_set contract (returned o) results) fs1 in
    MkRun (value r) (files r) (evs ++ emitted r).
Proof. intros H. cbn [analyze_all]. by rewrite (bind_run _ _ _ _ _ _ H). Qed.

Lemma outcomes_of_length env contracts fs :
  Forall (descriptor env) contracts ->
  length (outcomes_of env contracts fs) = length contracts.
Proof.
  intros Hall. revert fs.
  induction Hall as [|c rest Hc _ IH]; intros fs; [reflexivity|].
  destruct (analyze_total env c fs Hc) as (o & fs' & evs & Hr).
  cbn [outcomes_of]. rewrite Hr. cbn. by rewrite IH.
Qed.

Lemma analyze_all_run env contracts results fs :
  Forall (descriptor env) contracts ->
  exists fs' evs,
    analyze_all env contracts results fs
    = MkRun (inr (record_all contracts (outcomes_of env contracts fs) results))
            fs' evs
    /\ forall c, c ∈ contracts -> ("分析合约: " ++ c) ∈ printed evs.
Proof.
  intros Hall. revert results fs.
  induction Hall as [|c rest Hc _ IH]; intros results fs.
  - exists fs, []. split; [reflexivity|]. intros c Hc. by apply elem_of_nil in Hc.
  - destruct (analyze_total env c fs Hc) as (o & fs1 & evs1 & Hr).
    destruct (IH (dict_set c (returned o) results) fs1) as (fs2 & evs2 & Hrest & Hin).
    exists fs2, ((banner c ++ evs1) ++ evs2)%list. split.
    + rewrite (analyze_all_step _ _ _ _ _ _ _ _ Hr), Hrest.
      cbn [outcomes_of]. rewrite Hr. reflexivity.
    + intros c' [->|Hc']%elem_of_cons; rewrite printed_app.
      * apply elem_of_app. left. cbn. rewrite !elem_of_cons. auto.
      * apply elem_of_app. right. by apply Hin.
Qed.

(** ** The summary and the report *)

Lemma summary_run results fs :
  summary results fs
  = MkRun (inr tt) fs
          (map (fun entry => EPrint (summary_line entry.1 entry.2)) results).
Proof.
  induction results as [|[contract result] rest IH]; [reflexivity|].
  cbn [summary]. unfold bind, print, emit. cbn. by rewrite IH.
Qed.



Lemma write_sections_run results prior (fs : gmap string string) :
  fs !! output_file = Some prior ->
  write_sections results fs
  = MkRun (inr tt) (<[output_file := prior ++ sections_text results]> fs)
          (sections_writes results).
Proof.
  revert prior fs.
  induction results as [|[contract result] rest IH]; intros prior fs Hfs.
  - cbn. by rewrite StrFacts.app_nil_r, insert_id.
  - cbn [write_sections]. etrans.
    { eapply bind_to; [apply write_run, Hfs|].
      do 4 (eapply bind_to; [apply write_run, lookup_insert_eq|]).
      apply IH, lookup_insert_eq. }
    rewrite !insert_insert_eq. f_equal.
    cbn [sections_text]. unfold section_text. cbn [fst snd].
    by rewrite !StrFacts.app_assoc.
Qed.

(** ** The whole run *)

Lemma main_run env contracts fs :
  Forall (descriptor env) contracts ->
  let results := record_all contracts (outcomes_of env contracts fs) [] in
  exists fs' evs_analysis,
    main_with env contracts fs
    = MkRun (inr tt) (<[output_file := report_text results]> fs')
        ([EPrint (Str.nl ++ Str.rule);
          EPrint "MoeGirls Project - Mythril 安全分析";
          EPrint Str.rule]
         ++ evs_analysis
         ++ [EPrint (Str.nl ++ Str.rule); EPrint "分析摘要";
             EPrint (Str.rule ++ Str.nl)]
         ++ map (fun entry => EPrint (summary_line entry.1 entry.2)) results
         ++ report_writes results
         ++ [EPrint closing_line])
    /\ (forall c, c ∈ contracts -> ("分析合约: " ++ c) ∈ printed evs_analysis).
Proof.
  intros Hall results.
  destruct (analyze_all_run env contracts [] fs Hall) as (fs1 & evs1 & Hloop & Hin).
  exists fs1, evs1. split; [|exact Hin].
  unfold main_with. etrans.
  { do 3 (eapply bind_to; [reflexivity|]).
    eapply bind_to; [exact Hloop|].
    do 3 (eapply bind_to; [reflexivity|]).
    eapply bind_to; [apply summary_run|].
    eapply bind_to; [reflexivity|].
    do 2 (eapply bind_to; [apply write_run, lookup_insert_eq|]).
    eapply bind_to; [apply write_sections_run, lookup_insert_eq|].
    reflexivity. }
  rewrite !insert_insert_eq. fold results. by f_equal.
Qed.

(** ** The results dict *)



Lemma dict_set_fresh k v d : k ∉ d.*1 -> dict_set k v d = (d ++ [(k, v)])%list.
Proof.
  induction d as [|[k' v'] d IH]; cbn; [done|]. intros Hk.
  apply not_elem_of_cons in Hk as [Hne Hk].
  destruct (String.eqb_spec k' k) as [->|_]; [done|].
  by rewrite IH.
Qed.



(** Without repeated names the results are the contracts in order, each
    with the value its analysis returned. *)
Lemma record_all_nodup contracts outcomes results :
  length outcomes = length contracts ->
  NoDup (results.*1 ++ contracts) ->
  record_all contracts outcomes results
  = (results ++ zip contracts (returned <$> outcomes))%list.
Proof.
  revert outcomes results.
  induction contracts as [|k contracts IH]; intros [|o outcomes] results Hlen Hnd;
    cbn in *; try done.
  - by rewrite app_nil_r.
  - apply NoDup_app in Hnd as (Hr & Hdisj & Hc).
    apply NoDup_cons in Hc as [Hk Hc].
    assert (k ∉ results.*1) as Hfresh.
    { intros Hin. apply (Hdisj k Hin). apply elem_of_cons. by left. }
    rewrite dict_set_fresh by done.
    rewrite IH; [by rewrite <- app_assoc | lia |].
    rewrite fmap_app. cbn. rewrite <- app_assoc. cbn.
    apply NoDup_app. split; [done|]. split; [|by apply NoDup_cons].
    intros x Hx. by apply Hdisj.
Qed.

(** ** The ceiling of 90 seconds *)

Lemma exceeds_killed b : exceeds 90 b -> killed b = true /\ verdict b = Timeout.
Proof.
  destruct b as [elapsed out err rc| |e]; cbn; [|done..].
  intros Hlt.
  assert (Qle_bool elapsed 90 = false) as ->; [|done].
  apply not_true_is_false. rewrite Qle_bool_iff. by apply Qlt_not_le.
Qed.

(** * The claims *)

(** C1: whenever the captured text contains [SWC] or [Issue], the
    classifier answers [IssuesFound] with the whole text as its payload,
    for every exit status and whatever else the text contains; [Clean]
    never wins over it. *)
Theorem issues_found_takes_precedence output returncode fs :
  (exists pre post, output = pre ++ "SWC" ++ post)
  \/ (exists pre post, output = pre ++ "Issue" ++ post) ->
  value (classify output returncode fs) = inr (IssuesFound output)
  /\ returned (IssuesFound output) = Some output.
Proof.
  intros Hsub. split; [|reflexivity].
  rewrite classify_run. cbn [value]. f_equal.
  unfold classification.
  assert (Str.contains "SWC" output || Str.contains "Issue" output = true) as ->;
    [|reflexivity].
  apply orb_true_iff.
  destruct Hsub as [H|H]; [left|right]; by apply StrFacts.contains_iff.
Qed.

Lemma issues_found_takes_precedence_witness :
  value (classify "No issues found with SWC" 0 ∅)
  = inr (IssuesFound "No issues found with SWC")
  /\ returned (IssuesFound "No issues found with SWC")
     = Some "No issues found with SWC".
Proof.
  apply issues_found_takes_precedence.
  left. exists "No issues found with ", "". reflexivity.
Defined.

(** C5: a contract whose artifact file does not exist gets the outcome
    [NotFound]; [subprocess.run] is not called and no file is touched;
    the loop goes on with the next contract, with [None] recorded. *)
Theorem not_found_without_subprocess env contract_name fs rest results :
  artifacts env !! artifact_path contract_name = None ->
  let r := analyze_contract env contract_name fs in
  value r = inr NotFound
  /\ runs (emitted r) = []
  /\ files r = fs
  /\ analyze_all env (contract_name :: rest) results fs
     = let r' := analyze_all env rest (dict_set contract_name None results) fs in
       MkRun (value r') (files r') (emitted r ++ emitted r').
Proof.
  intros Ha. cbn zeta.
  rewrite (analyze_all_step _ _ _ _ _ _ _ _ (analyze_not_found _ _ _ Ha)).
  rewrite analyze_not_found by done. done.
Qed.

Lemma not_found_without_subprocess_witness :
  let env := Scenario.world (Scenario.artifact "0x6080" "0x6080") Hangs in
  value (analyze_contract env "DepositContract" ∅) = inr NotFound
  /\ runs (emitted (analyze_contract env "DepositContract" ∅)) = [].
Proof.
  intros env.
  destruct (not_found_without_subprocess env "DepositContract" ∅ [] [])
    as (Hv & Hr & _); [reflexivity|].
  split; [exact Hv | exact Hr].
Defined.

(** C6: a loaded artifact without a [bytecode] field, or whose [bytecode]
    is the string [0x], gets the outcome [EmptyBytecode]; [subprocess.run]
    is not called and no file is touched. *)
Theorem empty_bytecode_without_subprocess env contract_name d fs :
  artifacts env !! artifact_path contract_name = Some (inr (PyDict d)) ->
  d !! "bytecode" = None \/ d !! "bytecode" = Some (PyStr "0x") ->
  let r := analyze_contract env contract_name fs in
  value r = inr EmptyBytecode
  /\ runs (emitted r) = []
  /\ files r = fs.
Proof.
  intros Ha Hb. cbn zeta.
  assert (negb (truthy (default (PyStr "") (d !! "bytecode")))
          || eq_str (default (PyStr "") (d !! "bytecode")) "0x" = true) as He
    by (destruct Hb as [-> | ->]; reflexivity).
  rewrite (analyze_empty _ _ d fs Ha He).
  done.
Qed.

Lemma empty_bytecode_without_subprocess_witness :
  let env := Scenario.world (Scenario.artifact "0x" "0x") Hangs in
  value (analyze_contract env "MOEToken" ∅) = inr EmptyBytecode
  /\ runs (emitted (analyze_contract env "MOEToken" ∅)) = []
  /\ files (analyze_contract env "MOEToken" ∅) = ∅.
Proof.
  intros env.
  eapply (empty_bytecode_without_subprocess env "MOEToken");
    [reflexivity | right; reflexivity].
Defined.

(** C7: when the analyzer is started for a contract and outlives the
    ceiling of 90 seconds, the child is killed, the outcome is [Timeout],
    and the loop goes on with the next contract, with ["Timeout"]
    recorded. *)
Theorem timeout_then_next_contract env contract_name d bc fs rest results :
  artifacts env !! artifact_path contract_name = Some (inr (PyDict d)) ->
  d !! "bytecode" = Some (PyStr bc) ->
  bc <> "" -> bc <> "0x" ->
  let cmd := command (PyStr bc) (default (PyStr "") (d !! "deployedBytecode")) in
  exceeds 90 (tool env cmd (<[temp_file contract_name := bc]> fs)).1 ->
  let r := analyze_contract env contract_name fs in
  value r = inr Timeout
  /\ runs (emitted r) = [cmd]
  /\ kills (emitted r) = [cmd]
  /\ analyze_all env (contract_name :: rest) results fs
     = let r' := analyze_all env rest
                   (dict_set contract_name (Some "Timeout") results) (files r) in
       MkRun (value r') (files r') (emitted r ++ emitted r').
Proof.
  intros Ha Hb Hne H0x cmd Hlong. cbn zeta.
  pose proof (analyze_invoked env contract_name d bc fs Ha Hb Hne H0x) as Hrun.
  cbn zeta in Hrun. fold cmd in Hrun.
  destruct (exceeds_killed _ Hlong) as [Hk Hv].
  rewrite (analyze_all_step _ _ _ _ _ _ _ _ Hrun).
  rewrite Hrun, Hv. cbn [value files emitted returned].
  split; [done|].
  split; [|split; [|done]].
  - by rewrite !runs_app, runs_invocation, runs_removed.
  - by rewrite !kills_app, kills_invocation, kills_removed, Hk.
Qed.

Lemma timeout_then_next_contract_witness :
  let env := Scenario.world (Scenario.artifact "0x6080" "0x6080")
                            (Exits 91 "" "" 0) in
  value (analyze_contract env "MOEToken" ∅) = inr Timeout
  /\ kills (emitted (analyze_contract env "MOEToken" ∅))
     = [command (PyStr "0x6080") (PyStr "0x6080")].
Proof.
  intros env.
  destruct (timeout_then_next_contract env "MOEToken"
              (<["bytecode" := PyStr "0x6080"]>
                 (<["deployedBytecode" := PyStr "0x6080"]> ∅))
              "0x6080" ∅ [] [])
    as (Hv & _ & Hk & _);
    [reflexivity | reflexivity | discriminate | discriminate
    | reflexivity | ].
  split; [exact Hv | exact Hk].
Defined.












(** C9, at the input where it fails: the analyzer ends with exit status 1
    and no output for [MOEToken]; the result recorded is the empty string
    (a [NeedsReview] outcome), and the section of [MOEToken] in the report
    holds the placeholder of a failed analysis, as for a result [None]. *)
Theorem report_section_of_empty_payload :
  let env := Scenario.world (Scenario.artifact "0x6080" "0x6080")
                            Scenario.silent_failure in
  let results := [("MOEToken", Some ""); ("DepositContract", None);
                  ("VestingWalletFactory", None);
                  ("StageBasedVestingWallet", None)] in
  outcomes_of env CONTRACTS ∅ = [NeedsReview ""; NotFound; NotFound; NotFound]
  /\ record_all CONTRACTS (outcomes_of env CONTRACTS ∅) [] = results
  /\ files (main env ∅) !! output_file = Some (report_text results)
  /\ section_body (Some "") = "分析失败或未完成" ++ Str.nl
  /\ section_body (Some "") <> "".
Proof. vm_compute. repeat split; discriminate. Qed.

(** ** Who prints the line of the missing tool *)

(** Closes a goal from [H : line ∈ l] for an explicit list [l] of lines
    that all differ from [line] in their first bytes. *)
Ltac no_such_line H :=
  repeat (apply elem_of_cons in H as [H|H];
          [by (vm_compute in H; discriminate H)|]);
  by apply elem_of_nil in H.

Lemma tool_missing_line_not_issue output :
  Str.contains "SWC" output || Str.contains "Issue" output = true ->
  tool_missing_line <> output.
Proof. intros Hc <-. vm_compute in Hc. discriminate Hc. Qed.

(** Among the outcomes of [invoke], only [ToolMissing] prints the line. *)
Lemma verdict_says_tool_missing b :
  tool_missing_line ∈ printed (said "" (verdict b)) -> verdict b = ToolMissing.
Proof.
  destruct b as [elapsed out err rc| |[[] msg]]; cbn; intros Hin;
    try reflexivity; try (no_such_line Hin).
  destruct (Qle_bool elapsed 90); [|no_such_line Hin].
  unfold classification in *.
  destruct (Str.contains "SWC" (out ++ err) || Str.contains "Issue" (out ++ err))
    eqn:Hc.
  - cbn in Hin.
    apply elem_of_cons in Hin as [Hin|Hin];
      [by (vm_compute in Hin; discriminate Hin)|].
    apply elem_of_cons in Hin as [Hin|Hin]; [|by apply elem_of_nil in Hin].
    by apply tool_missing_line_not_issue in Hc.
  - destruct (Str.contains "No issues" (out ++ err) || (rc =? 0)%Z);
      cbn in Hin; no_such_line Hin.
Qed.

(** Only a dict has [get]; only a string can be written. *)
Lemma py_get_raises v key dflt fs :
  (forall d, v <> PyDict d) ->
  py_get v key dflt fs
  = MkRun (inl (Exn AttributeError
                  ("'" ++ type_name v ++ "' object has no attribute 'get'")))
          fs [].
Proof. intros Hnd. destruct v; try reflexivity. by destruct (Hnd d). Qed.

Lemma write_raises path v fs :
  (forall s, v <> PyStr s) ->
  write path v fs
  = MkRun (inl (Exn TypeError
                  ("write() argument must be str, not " ++ type_name v)))
          fs [].
Proof. intros Hns. destruct v; try reflexivity. by destruct (Hns s). Qed.

(** An artifact that is not a JSON object makes the analysis raise, at
    line 43 and outside any [try]. *)
Lemma analyze_not_an_object env contract_name artifact fs :
  artifacts env !! artifact_path contract_name = Some (inr artifact) ->
  (forall d, artifact <> PyDict d) ->
  analyze_contract env contract_name fs
  = MkRun (inl (Exn AttributeError
                  ("'" ++ type_name artifact
                   ++ "' object has no attribute 'get'")))
          fs (banner contract_name).
Proof.
  intros Ha Hnd. unfold analyze_contract. rewrite Ha.
  etrans.
  { do 3 (eapply bind_to; [reflexivity|]).
    eapply bind_raised. by apply py_get_raises. }
  reflexivity.
Qed.

(** A [bytecode] that is true and not a string makes the analysis raise, at
    line 53 and outside any [try]: the scratch file is left behind, empty. *)
Lemma analyze_not_a_string env contract_name d v fs :
  artifacts env !! artifact_path contract_name = Some (inr (PyDict d)) ->
  d !! "bytecode" = Some v ->
  truthy v = true ->
  (forall s, v <> PyStr s) ->
  analyze_contract env contract_name fs
  = MkRun (inl (Exn TypeError
                  ("write() argument must be str, not " ++ type_name v)))
          (<[temp_file contract_name := ""]> fs)
          (banner contract_name ++ [EOpenW (temp_file contract_name)]).
Proof.
  intros Ha Hb Ht Hns. unfold analyze_contract. rewrite Ha.
  assert (eq_str v "0x" = false) as H0x
    by (destruct v; try reflexivity; by destruct (Hns s)).
  etrans.
  { do 3 (eapply bind_to; [reflexivity|]).
    do 2 (eapply bind_to; [reflexivity|]).
    rewrite Hb. change (default (PyStr "") (Some v)) with v.
    rewrite Ht, H0x. cbn [negb orb].
    eapply bind_to; [reflexivity|].
    eapply bind_raised. by apply write_raises. }
  reflexivity.
Qed.

(** In every analysis that returns, the line of the missing tool is
    printed only for the outcome [ToolMissing]. *)
Lemma only_tool_missing_says_so env contract_name fs o :
  value (analyze_contract env contract_name fs) = inr o ->
  tool_missing_line ∈ printed (emitted (analyze_contract env contract_name fs)) ->
  o = ToolMissing.
Proof.
  destruct (artifacts env !! artifact_path contract_name)
    as [[e|artifact]|] eqn:Ha.
  - rewrite (analyze_read_error env contract_name e fs Ha).
    cbn. intros _ Hin. no_such_line Hin.
  - assert (forall d, artifact = PyDict d ->
              negb (truthy (default (PyStr "") (d !! "bytecode")))
              || eq_str (default (PyStr "") (d !! "bytecode")) "0x" = true ->
              value (analyze_contract env contract_name fs) = inr o ->
              tool_missing_line
                ∈ printed (emitted (analyze_contract env contract_name fs)) ->
              o = ToolMissing) as Hempty.
    { intros d -> Hfalse. rewrite (analyze_empty env contract_name d fs Ha Hfalse).
      cbn. intros _ Hin. no_such_line Hin. }
    destruct artifact as [| | | | |?|d];
      try (rewrite (analyze_not_an_object env contract_name _ fs Ha) by done;
           discriminate).
    destruct (d !! "bytecode") as [v|] eqn:Hb;
      [|apply (Hempty d); [done | by rewrite Hb]].
    destruct (truthy v) eqn:Ht;
      [|apply (Hempty d); [done | by rewrite Hb; cbn; rewrite Ht]].
    destruct v as [| | | |bc| |];
      try (rewrite (analyze_not_a_string env contract_name d _ fs Ha Hb Ht)
             by done;
           discriminate).
    destruct (String.eqb_spec bc "0x") as [->|H0x];
      [apply (Hempty d); [done | by rewrite Hb]|].
    assert (bc <> "") as Hne by (by intros ->).
    rewrite (analyze_invoked env contract_name d bc fs Ha Hb Hne H0x).
    cbn [value emitted]. intros [= <-].
    rewrite !printed_app, printed_invocation, printed_removed.
    cbn [printed banner app]. rewrite app_nil_r. intros Hin.
    do 4 (apply elem_of_cons in Hin as [Hin|Hin];
          [by (vm_compute in Hin; discriminate Hin)|]).
    by apply verdict_says_tool_missing.
  - rewrite (analyze_not_found env contract_name fs Ha).
    cbn. intros _ Hin. no_such_line Hin.
Qed.

(** C4, as stated, fails: an analysis that ends because [myth] is not
    installed and one that ends because the artifact is missing are not
    told apart by the summary or the report. *)
Lemma tool_missing_reported_like_not_found :
  let env := Scenario.world (Scenario.artifact "0x6080" "0x6080")
                            Scenario.not_installed in
  value (analyze_contract env "MOEToken" ∅) = inr ToolMissing
  /\ value (analyze_contract env "DepositContract" ∅) = inr NotFound
  /\ ~ told_apart ToolMissing NotFound.
Proof.
  split; [reflexivity|]. split; [reflexivity|].
  intros [contract [H|H]]; by apply H.
Qed.

(** C4, amended: when [subprocess.run] raises [FileNotFoundError] (the
    binary is not found), the outcome is [ToolMissing]; the analysis prints
    a line of its own for it, which no other outcome prints, and the hint
    to install the tool; the value returned is [None], so the summary
    status and the report section are those of every failed analysis. *)
Theorem tool_missing_reported env contract_name d bc fs e :
  artifacts env !! artifact_path contract_name = Some (inr (PyDict d)) ->
  d !! "bytecode" = Some (PyStr bc) ->
  bc <> "" -> bc <> "0x" ->
  (tool env (command (PyStr bc) (default (PyStr "") (d !! "deployedBytecode")))
        (<[temp_file contract_name := bc]> fs)).1 = Fails e ->
  exn_cls e = FileNotFoundError ->
  let r := analyze_contract env contract_name fs in
  value r = inr ToolMissing
  /\ tool_missing_line ∈ printed (emitted r)
  /\ "请运行: pip install mythril" ∈ printed (emitted r)
  /\ (forall env' contract_name' fs' o,
        value (analyze_contract env' contract_name' fs') = inr o ->
        tool_missing_line
          ∈ printed (emitted (analyze_contract env' contract_name' fs')) ->
        o = ToolMissing)
  /\ returned ToolMissing = None
  /\ status (returned ToolMissing) = "❌ 失败"
  /\ section_body (returned ToolMissing) = "分析失败或未完成" ++ Str.nl.
Proof.
  intros Ha Hb Hne H0x Htool Hcls. cbn zeta.
  rewrite (analyze_invoked env contract_name d bc fs Ha Hb Hne H0x).
  rewrite Htool. cbn [value emitted verdict]. rewrite Hcls.
  split; [done|].
  rewrite !printed_app, printed_invocation, printed_removed.
  cbn [verdict exn_cls]. rewrite Hcls. cbn [said printed].
  split; [|split; [|split; [|done]]].
  - rewrite !elem_of_app, !elem_of_cons. auto 10.
  - rewrite !elem_of_app, !elem_of_cons. auto 10.
  - apply only_tool_missing_says_so.
Qed.

Lemma tool_missing_reported_witness :
  let env := Scenario.world (Scenario.artifact "0x6080" "0x6080")
                            Scenario.not_installed in
  value (analyze_contract env "MOEToken" ∅) = inr ToolMissing
  /\ tool_missing_line ∈ printed (emitted (analyze_contract env "MOEToken" ∅)).
Proof.
  intros env.
  destruct (tool_missing_reported env "MOEToken"
              (<["bytecode" := PyStr "0x6080"]>
                 (<["deployedBytecode" := PyStr "0x6080"]> ∅))
              "0x6080" ∅
              (Exn FileNotFoundError "[Errno 2] No such file or directory: 'myth'"))
    as (Hv & Hl & _);
    [reflexivity | reflexivity | discriminate | discriminate
    | reflexivity | reflexivity | ].
  split; [exact Hv | exact Hl].
Defined.

(** ** What holds of the report in every run *)

(** Whatever the files held before, the report of a run over distinct
    contracts is the header followed by one section per contract, in the
    order of the list, each built from the value its analysis returned. *)
Lemma report_rewritten_in_full env contracts fs :
  Forall (descriptor env) contracts ->
  NoDup contracts ->
  files (main_with env contracts fs) !! output_file
  = Some (report_text
            (zip contracts (returned <$> outcomes_of env contracts fs))).
Proof.
  intros Hall Hnd.
  destruct (main_run env contracts fs Hall) as (fs' & evs & Hrun & _).
  cbn zeta in Hrun. rewrite Hrun. cbn [files].
  rewrite lookup_insert_eq.
  rewrite record_all_nodup; [done | by apply outcomes_of_length | done].
Qed.

(** ** Outside the descriptors *)


(** An artifact that is a JSON array ends the run at line 43: no summary,
    no report. *)
Example array_artifact_ends_the_run :
  let env := Scenario.world (PyList []) Hangs in
  value (main env ∅)
  = inl (Exn AttributeError "'list' object has no attribute 'get'")
  /\ files (main env ∅) !! output_file = None
  /\ "分析摘要" ∉ printed (emitted (main env ∅)).
Proof.
  vm_compute. split; [reflexivity|]. split; [reflexivity|].
  intros Hin. repeat (apply elem_of_cons in Hin as [Hin|Hin]; [discriminate Hin|]).
  by apply elem_of_nil in Hin.
Qed.

(** A binary that is found but may not be executed makes
    [subprocess.run] raise [PermissionError], which the last handler turns
    into [RuntimeError]; only [FileNotFoundError] gives [ToolMissing]. *)
Example not_executable_is_a_runtime_error :
  let env := Scenario.world (Scenario.artifact "0x6080" "0x6080")
                            Scenario.not_executable in
  value (analyze_contract env "MOEToken" ∅)
  = inr (RuntimeError
           (Exn PermissionError "[Errno 13] Permission denied: 'myth'")).
Proof. reflexivity. Qed.

(** * Further properties of the script *)

(** ** Paths touched *)

Lemma paths_app (a b : list event) : paths (a ++ b) = (paths a ++ paths b)%list.
Proof. apply omap_app. Qed.

Lemma paths_said contract_name o : paths (said contract_name o) = [].
Proof. by destruct o. Qed.

Lemma paths_banner contract_name : paths (banner contract_name) = [].
Proof. reflexivity. Qed.

Lemma paths_invocation cmd b : paths (invocation cmd b) = [].
Proof.
  unfold invocation, paths. cbn [omap list_omap touched].
  fold (paths ((if killed b then [EKill cmd] else []) ++ said "" (verdict b))).
  rewrite paths_app, paths_said. by destruct (killed b).
Qed.

Lemma paths_removed (there : bool) path :
  paths (if there then [ERemove path] else [])
  = if there then [path] else [].
Proof. by destruct there. Qed.

(** ** Every way an analysis can go *)

(** The four shapes of the run of [analyze_contract]: an early return, an
    exception at line 43, an exception at line 53, or an invocation of the
    analyzer. *)
Lemma analysis_cases env contract_name fs :
  let r := analyze_contract env contract_name fs in
  let tmp := temp_file contract_name in
  (exists o,
     (o = NotFound \/ (exists e, o = ReadError e) \/ o = EmptyBytecode)
     /\ r = MkRun (inr o) fs (banner contract_name ++ said contract_name o))
  \/ (exists e,
        exn_cls e = AttributeError
        /\ r = MkRun (inl e) fs (banner contract_name))
  \/ (exists e,
        exn_cls e = TypeError
        /\ r = MkRun (inl e) (<[tmp := ""]> fs)
                     (banner contract_name ++ [EOpenW tmp]))
  \/ (exists bc deployed,
        bc <> "" /\ bc <> "0x"
        /\ let cmd := command (PyStr bc) deployed in
           let answer := tool env cmd (<[tmp := bc]> fs) in
           r = MkRun (inr (verdict answer.1)) (delete tmp answer.2)
                     (banner contract_name
                      ++ [EOpenW tmp; EWrite tmp bc]
                      ++ invocation cmd answer.1
                      ++ (if bool_decide (is_Some (answer.2 !! tmp))
                          then [ERemove tmp] else []))).
Proof.
  cbn zeta.
  destruct (artifacts env !! artifact_path contract_name)
    as [[e|artifact]|] eqn:Ha.
  - left. exists (ReadError e). split; [right; left; by exists e|].
    by apply analyze_read_error.
  - assert (forall d, artifact = PyDict d ->
              negb (truthy (default (PyStr "") (d !! "bytecode")))
              || eq_str (default (PyStr "") (d !! "bytecode")) "0x" = true ->
              analyze_contract env contract_name fs
              = MkRun (inr EmptyBytecode) fs
                      (banner contract_name ++ said contract_name EmptyBytecode))
      as Hempty.
    { intros d -> Hfalse. by apply (analyze_empty env contract_name d fs Ha). }
    destruct artifact as [| | | | |?|d];
      try (right; left; eexists; split;
           [|by apply (analyze_not_an_object env contract_name _ fs Ha)];
           reflexivity).
    destruct (d !! "bytecode") as [v|] eqn:Hb.
    2: { left. exists EmptyBytecode. split; [by right; right|].
         apply (Hempty d); [done | by rewrite Hb]. }
    destruct (truthy v) eqn:Ht.
    2: { left. exists EmptyBytecode. split; [by right; right|].
         apply (Hempty d); [done | by rewrite Hb; cbn; rewrite Ht]. }
    destruct v as [| | | |bc| |];
      try (right; right; left; eexists; split;
           [|by apply (analyze_not_a_string env contract_name d _ fs Ha Hb Ht)];
           reflexivity).
    destruct (String.eqb_spec bc "0x") as [->|H0x].
    { left. exists EmptyBytecode. split; [by right; right|].
      apply (Hempty d); [done | by rewrite Hb]. }
    assert (bc <> "") as Hne by (by intros ->).
    right; right; right.
    exists bc, (default (PyStr "") (d !! "deployedBytecode")).
    split; [done|]. split; [done|].
    by apply (analyze_invoked env contract_name d bc fs Ha Hb).
  - left. exists NotFound. split; [by left|]. by apply analyze_not_found.
Qed.

(** ** [main] after its loop *)

Lemma main_after_loop env contracts fs results fs1 evs1 :
  analyze_all env contracts [] fs = MkRun (inr results) fs1 evs1 ->
  main_with env contracts fs
  = MkRun (inr tt) (<[output_file := report_text results]> fs1)
      ([EPrint (Str.nl ++ Str.rule);
        EPrint "MoeGirls Project - Mythril 安全分析";
        EPrint Str.rule]
       ++ evs1
       ++ [EPrint (Str.nl ++ Str.rule); EPrint "分析摘要";
           EPrint (Str.rule ++ Str.nl)]
       ++ map (fun entry => EPrint (summary_line entry.1 entry.2)) results
       ++ report_writes results
       ++ [EPrint closing_line]).
Proof.
  intros Hloop. unfold main_with. etrans.
  { do 3 (eapply bind_to; [reflexivity|]).
    eapply bind_to; [exact Hloop|].
    do 3 (eapply bind_to; [reflexivity|]).
    eapply bind_to; [apply summary_run|].
    eapply bind_to; [reflexivity|].
    do 2 (eapply bind_to; [apply write_run, lookup_insert_eq|]).
    eapply bind_to; [apply write_sections_run, lookup_insert_eq|].
    reflexivity. }
  rewrite !insert_insert_eq. by f_equal.
Qed.

Lemma main_when_loop_raises env contracts fs e fs1 evs1 :
  analyze_all env contracts [] fs = MkRun (inl e) fs1 evs1 ->
  main_with env contracts fs
  = MkRun (inl e) fs1
      ([EPrint (Str.nl ++ Str.rule);
        EPrint "MoeGirls Project - Mythril 安全分析";
        EPrint Str.rule]
       ++ evs1).
Proof.
  intros Hloop. unfold main_with. etrans.
  { do 3 (eapply bind_to; [reflexivity|]).
    eapply bind_raised. exact Hloop. }
  reflexivity.
Qed.



Lemma paths_summary results :
  paths (map (fun entry => EPrint (summary_line entry.1 entry.2)) results) = [].
Proof. induction results as [|entry rest IH]; [reflexivity | exact IH]. Qed.

(** ** One contract: what its events hold *)

(** The analysis of a contract touches its scratch file only. *)
Lemma analysis_paths env contract_name fs :
  Forall (eq (temp_file contract_name))
         (paths (emitted (analyze_contract env contract_name fs))).
Proof.
  destruct (analysis_cases env contract_name fs)
    as [(o & _ & Hr) | [(e & _ & Hr) | [(e & _ & Hr)
        | (bc & deployed & _ & _ & Hr)]]];
    cbn zeta in Hr; rewrite Hr; cbn [emitted].
  - rewrite paths_app, paths_banner, paths_said. constructor.
  - rewrite paths_banner. constructor.
  - rewrite paths_app, paths_banner. repeat constructor.
  - rewrite !paths_app, paths_banner, paths_invocation, paths_removed.
    case_bool_decide; repeat constructor.
Qed.


(** The payload of a command line is true and is not [0x] when
    [bytecode] is a string that passes the test of line 46. *)
Lemma command_payload bc deployed :
  bc <> "" -> bc <> "0x" ->
  exists payload,
    after_flag "--bin-runtime" (command (PyStr bc) deployed) = Some payload
    /\ truthy payload = true /\ payload <> PyStr "0x".
Proof.
  intros Hne H0x.
  exists (if truthy deployed && negb (eq_str deployed "0x")
          then deployed else PyStr bc).
  split; [reflexivity|].
  destruct (truthy deployed) eqn:Ht; cbn [andb].
  - destruct (eq_str deployed "0x") eqn:He; cbn [negb].
    + split; [cbn; by apply String.eqb_neq in Hne as -> | congruence].
    + split; [done|]. intros ->. cbn in He. discriminate He.
  - split; [cbn; by apply String.eqb_neq in Hne as -> | congruence].
Qed.

Lemma analysis_payloads env contract_name fs :
  Forall (fun cmd =>
            exists payload,
              after_flag "--bin-runtime" cmd = Some payload
              /\ truthy payload = true /\ payload <> PyStr "0x")
         (runs (emitted (analyze_contract env contract_name fs))).
Proof.
  destruct (analysis_cases env contract_name fs)
    as [(o & _ & Hr) | [(e & _ & Hr) | [(e & _ & Hr)
        | (bc & deployed & Hne & H0x & Hr)]]];
    cbn zeta in Hr; rewrite Hr; cbn [emitted].
  - rewrite runs_app, runs_said. constructor.
  - constructor.
  - rewrite runs_app. constructor.
  - rewrite !runs_app, runs_invocation, runs_removed. cbn [runs app].
    constructor; [by apply command_payload | constructor].
Qed.


(** ** The loop: where its events come from *)

Lemma runs_elem cmd evs : cmd ∈ runs evs <-> ERun cmd ∈ evs.
Proof.
  induction evs as [|ev evs IH]; cbn.
  - by rewrite !elem_of_nil.
  - destruct ev; cbn [runs]; rewrite ?elem_of_cons, IH;
      try (split; [by right | by intros [?|?]]).
    split; [intros [->|?]; [by left | by right]
           | intros [[= ->]|?]; [by left | by right]].
Qed.

(** One step of the loop, whether the analysis returns or raises. *)
Lemma analyze_all_emitted env contract rest results fs :
  exists results' tail,
    emitted (analyze_all env (contract :: rest) results fs)
    = (emitted (analyze_contract env contract fs) ++ tail)%list
    /\ (tail = []
        \/ tail = emitted (analyze_all env rest results'
                             (files (analyze_contract env contract fs)))).
Proof.
  destruct (analyze_contract env contract fs) as [[e|o] fs1 evs] eqn:Hr.
  - exists results, []. cbn [analyze_all].
    rewrite (bind_raised _ _ _ _ _ _ Hr). cbn. rewrite app_nil_r. by split; [|left].
  - exists (dict_set contract (returned o) results). eexists.
    rewrite (analyze_all_step _ _ _ _ _ _ _ _ Hr). cbn.
    split; [reflexivity | by right].
Qed.

(** Every event of the loop is an event of the analysis of a contract of
    the list. *)
Lemma loop_events env contracts results fs ev :
  ev ∈ emitted (analyze_all env contracts results fs) ->
  exists c fs', c ∈ contracts /\ ev ∈ emitted (analyze_contract env c fs').
Proof.
  revert results fs.
  induction contracts as [|c rest IH]; intros results fs Hev.
  - by apply elem_of_nil in Hev.
  - destruct (analyze_all_emitted env c rest results fs)
      as (results' & tail & Hem & Htail).
    rewrite Hem in Hev. apply elem_of_app in Hev as [Hev|Hev].
    + exists c, fs. split; [apply elem_of_cons; by left | done].
    + destruct Htail as [->| ->]; [by apply elem_of_nil in Hev|].
      destruct (IH _ _ Hev) as (c' & fs' & Hc' & Hev').
      exists c', fs'. split; [apply elem_of_cons; by right | done].
Qed.



(** ** [main]: where its events come from *)

Lemma report_writes_touch results ev :
  ev ∈ report_writes results -> touched ev = Some output_file.
Proof.
  unfold report_writes. intros [Hev|Hev]%elem_of_app.
  - repeat (apply elem_of_cons in Hev as [->|Hev]; [reflexivity|]).
    by apply elem_of_nil in Hev.
  - induction results as [|entry rest IH]; [by apply elem_of_nil in Hev|].
    cbn [sections_writes] in Hev. apply elem_of_app in Hev as [Hev|Hev]; [|auto].
    unfold section_writes in Hev.
    repeat (apply elem_of_cons in Hev as [->|Hev]; [reflexivity|]).
    by apply elem_of_nil in Hev.
Qed.

Lemma summary_events results ev :
  ev ∈ map (fun entry => EPrint (summary_line entry.1 entry.2)) results ->
  exists line, ev = EPrint line.
Proof.
  induction results as [|entry rest IH]; cbn [map].
  - by intros ?%elem_of_nil.
  - intros [->|Hev]%elem_of_cons; [by eexists | auto].
Qed.

(** An event of a run is an event of the analysis of a contract, a line
    printed by [main], or a write to the report. *)
Lemma main_events env contracts fs ev :
  ev ∈ emitted (main_with env contracts fs) ->
  (exists c fs', c ∈ contracts /\ ev ∈ emitted (analyze_contract env c fs'))
  \/ (exists line, ev = EPrint line)
  \/ touched ev = Some output_file.
Proof.
  destruct (analyze_all env contracts [] fs) as [[e|results] fs1 evs1] eqn:Hloop.
  - rewrite (main_when_loop_raises _ _ _ _ _ _ Hloop). cbn [emitted].
    intros [Hev|Hev]%elem_of_app.
    + right; left.
      repeat (apply elem_of_cons in Hev as [->|Hev]; [by eexists|]).
      by apply elem_of_nil in Hev.
    + left. apply (loop_events env contracts [] fs). by rewrite Hloop.
  - rewrite (main_after_loop _ _ _ _ _ _ Hloop). cbn [emitted].
    rewrite !elem_of_app.
    intros [Hev|[Hev|[Hev|[Hev|[Hev|Hev]]]]].
    + right; left.
      repeat (apply elem_of_cons in Hev as [->|Hev]; [by eexists|]).
      by apply elem_of_nil in Hev.
    + left. apply (loop_events env contracts [] fs). by rewrite Hloop.
    + right; left.
      repeat (apply elem_of_cons in Hev as [->|Hev]; [by eexists|]).
      by apply elem_of_nil in Hev.
    + right; left. by apply (summary_events results).
    + right; right. by apply (report_writes_touch results).
    + right; left. apply elem_of_cons in Hev as [->|Hev]; [by eexists|].
      by apply elem_of_nil in Hev.
Qed.

(** ** The results dict *)

Lemma dict_set_keys k v d :
  (dict_set k v d).*1
  = if bool_decide (k ∈ d.*1) then d.*1 else (d.*1 ++ [k])%list.
Proof.
  induction d as [|[k' v'] d IH]; cbn; [by case_bool_decide as H; [apply elem_of_nil in H|]|].
  destruct (String.eqb_spec k' k) as [->|Hne]; cbn.
  - rewrite bool_decide_true; [done | apply elem_of_cons; by left].
  - rewrite IH. case_bool_decide as Hin.
    + rewrite bool_decide_true; [done | apply elem_of_cons; by right].
    + rewrite bool_decide_false; [done|].
      intros [?|?]%elem_of_cons; congruence.
Qed.

Lemma dict_set_nodup k v d : NoDup d.*1 -> NoDup (dict_set k v d).*1.
Proof.
  intros Hnd. rewrite dict_set_keys. case_bool_decide as Hin; [done|].
  apply NoDup_app. split; [done|]. split; [|apply NoDup_singleton].
  intros x Hx [->|Hnil]%elem_of_cons; [done | by apply elem_of_nil in Hnil].
Qed.

Lemma dict_set_elem c k v d : c ∈ (dict_set k v d).*1 <-> c = k \/ c ∈ d.*1.
Proof.
  rewrite dict_set_keys. case_bool_decide as Hin.
  - split; [auto | by intros [->|?]].
  - rewrite elem_of_app, elem_of_cons, elem_of_nil.
    split; [intros [?|[?|[]]]; auto | intros [?|?]; auto].
Qed.

(** ** Lengths in code points *)

Lemma len_app (a b : string) : Str.len (a ++ b) = Str.len a + Str.len b.
Proof.
  induction a as [|c a IH]; [reflexivity|].
  rewrite StrFacts.app_cons. cbn [Str.len]. rewrite IH. lia.
Qed.

Lemma len_spaces n : Str.len (Str.repeat " " n) = n.
Proof. induction n as [|n IH]; [reflexivity|]. cbn. by rewrite IH. Qed.

(** * Further properties, one by one *)

(** X1: a text without [SWC] and without [Issue] that holds [No issues], or
    that comes with exit status 0, is classified [Clean]; the text itself is
    dropped: neither printed nor returned, the fixed string
    ["No issues found"] stands for it in the results and in the report. *)
Theorem clean_discards_output output returncode fs :
  Str.contains "SWC" output = false ->
  Str.contains "Issue" output = false ->
  Str.contains "No issues" output = true \/ returncode = 0%Z ->
  let r := classify output returncode fs in
  value r = inr Clean
  /\ printed (emitted r) = ["✅ 未发现安全问题"]
  /\ returned Clean = Some "No issues found"
  /\ section_body (returned Clean) = "No issues found".
Proof.
  intros Hswc Hissue Hok. cbn zeta. rewrite classify_run.
  unfold classification. rewrite Hswc, Hissue. cbn [orb].
  assert (Str.contains "No issues" output || (returncode =? 0)%Z = true) as ->.
  { apply orb_true_iff. destruct Hok as [H| ->]; [by left | by right]. }
  done.
Qed.

Lemma clean_discards_output_witness :
  let output := "The analysis was completed successfully. No issues were detected." in
  value (classify output 1 ∅) = inr Clean
  /\ printed (emitted (classify output 1 ∅)) = ["✅ 未发现安全问题"].
Proof.
  intros output.
  destruct (clean_discards_output output 1 ∅)
    as (Hv & Hp & _); [reflexivity | reflexivity | by left | ].
  split; [exact Hv | exact Hp].
Defined.

(** X2: a text without [SWC], [Issue] and [No issues] that comes with a
    nonzero exit status is classified [NeedsReview] and is kept whole: it is
    printed after a fixed heading and it is the value returned. *)
Theorem needs_review_keeps_output output returncode fs :
  Str.contains "SWC" output = false ->
  Str.contains "Issue" output = false ->
  Str.contains "No issues" output = false ->
  returncode <> 0%Z ->
  let r := classify output returncode fs in
  value r = inr (NeedsReview output)
  /\ printed (emitted r) = ["⚠️  分析完成，输出:" ++ Str.nl ++ output]
  /\ returned (NeedsReview output) = Some output
  /\ files r = fs.
Proof.
  intros Hswc Hissue Hno Hrc. cbn zeta. rewrite classify_run.
  unfold classification. rewrite Hswc, Hissue, Hno.
  apply Z.eqb_neq in Hrc. rewrite Hrc. done.
Qed.

Lemma needs_review_keeps_output_witness :
  value (classify "Traceback (most recent call last)" 1 ∅)
  = inr (NeedsReview "Traceback (most recent call last)").
Proof.
  destruct (needs_review_keeps_output "Traceback (most recent call last)" 1 ∅)
    as (Hv & _);
    [reflexivity | reflexivity | reflexivity | discriminate | exact Hv].
Defined.

(** The status of the summary for the outcomes of [invoke]. *)
Lemma status_of_verdict b :
  status (returned (verdict b)) = shown_status (verdict b).
Proof.
  destruct b as [elapsed out err rc| |[[] msg]]; cbn [verdict exn_cls];
    try reflexivity.
  destruct (Qle_bool elapsed 90); [|reflexivity].
  unfold classification. set (output := out ++ err).
  destruct (Str.contains "SWC" output || Str.contains "Issue" output) eqn:Hc.
  - cbn [returned status shown_status meant_status]. rewrite Hc.
    destruct (String.eqb_spec output "Timeout") as [He|_];
      [rewrite He in Hc; vm_compute in Hc; discriminate Hc|].
    destruct (String.eqb_spec output "No issues found") as [He|_];
      [rewrite He in Hc; vm_compute in Hc; discriminate Hc|].
    reflexivity.
  - destruct (Str.contains "No issues" output || (rc =? 0)%Z) eqn:Hn;
      [reflexivity|].
    cbn [returned status shown_status meant_status]. rewrite Hc.
    destruct (output =? "Timeout"); [reflexivity|].
    destruct (String.eqb_spec output "No issues found") as [He|_];
      [rewrite He in Hn; vm_compute in Hn; discriminate Hn|].
    reflexivity.
Qed.

(** X3: the summary works the status out again from the value returned,
    and finds the status meant for the outcome of the analysis in every
    case but one: a [NeedsReview] outcome whose text is exactly ["Timeout"]
    is shown with the status of a timeout. *)
Theorem summary_status_of_outcome env contract_name fs o :
  value (analyze_contract env contract_name fs) = inr o ->
  status (returned o) = shown_status o
  /\ (shown_status o <> meant_status o -> o = NeedsReview "Timeout").
Proof.
  assert (forall o', shown_status o' <> meant_status o' ->
                     o' = NeedsReview "Timeout") as Honly.
  { intros [|e| |t| |t| | |e] Hd; try by destruct Hd.
    cbn in Hd.
    destruct (String.eqb_spec t "Timeout") as [Heq|_];
      [by rewrite Heq | by destruct Hd]. }
  intros Hv. split; [|apply Honly]. revert Hv.
  destruct (analysis_cases env contract_name fs)
    as [(o' & Ho' & Hr) | [(e & _ & Hr) | [(e & _ & Hr)
        | (bc & deployed & _ & _ & Hr)]]];
    cbn zeta in Hr; rewrite Hr; cbn [value]; intros [= <-].
  - by destruct Ho' as [-> | [[e ->] | ->]].
  - apply status_of_verdict.
Qed.

Lemma summary_status_of_outcome_witness :
  let env := Scenario.world (Scenario.artifact "0x6080" "0x")
                            (Exits 1 "Timeout" "" 1) in
  value (analyze_contract env "MOEToken" ∅) = inr (NeedsReview "Timeout")
  /\ status (returned (NeedsReview "Timeout")) = "⏱️  超时".
Proof.
  intros env.
  assert (value (analyze_contract env "MOEToken" ∅)
          = inr (NeedsReview "Timeout")) as Hv by reflexivity.
  split; [exact Hv|].
  exact (proj1 (summary_status_of_outcome env "MOEToken" ∅ _ Hv)).
Defined.

(** X4: an artifact that exists but does not load (any exception of
    [open] or [json.load]) gives the outcome [ReadError]: the text of the
    exception is printed, [None] is returned, [subprocess.run] is not
    called, no file is touched, and the loop goes on. *)
Theorem read_error_without_subprocess env contract_name e fs rest results :
  artifacts env !! artifact_path contract_name = Some (inl e) ->
  let r := analyze_contract env contract_name fs in
  value r = inr (ReadError e)
  /\ printed (emitted r)
     = (printed (banner contract_name)
        ++ [("❌ 读取artifact失败: " ++ exn_msg e)%string])%list
  /\ runs (emitted r) = [] /\ paths (emitted r) = [] /\ files r = fs
  /\ analyze_all env (contract_name :: rest) results fs
     = let r' := analyze_all env rest (dict_set contract_name None results) fs in
       MkRun (value r') (files r') (emitted r ++ emitted r').
Proof.
  intros Ha. cbn zeta.
  rewrite (analyze_all_step _ _ _ _ _ _ _ _
             (analyze_read_error env contract_name e fs Ha)).
  rewrite (analyze_read_error env contract_name e fs Ha). done.
Qed.

Lemma read_error_without_subprocess_witness :
  value (analyze_contract (Edge.unreadable Edge.not_json) "MOEToken" ∅)
  = inr (ReadError Edge.not_json)
  /\ runs (emitted (analyze_contract (Edge.unreadable Edge.not_json)
                                     "MOEToken" ∅)) = [].
Proof.
  destruct (read_error_without_subprocess
              (Edge.unreadable Edge.not_json) "MOEToken" Edge.not_json ∅ [] [])
    as (Hv & _ & Hr & _); [reflexivity|].
  split; [exact Hv | exact Hr].
Defined.

(** X5: a [bytecode] field without truth (the empty string, null, zero,
    false, an empty list or object) is handled like an absent one: the
    outcome is [EmptyBytecode], nothing is run and no file is touched. *)
Theorem falsy_bytecode_is_empty env contract_name d v fs :
  artifacts env !! artifact_path contract_name = Some (inr (PyDict d)) ->
  d !! "bytecode" = Some v ->
  truthy v = false ->
  let r := analyze_contract env contract_name fs in
  value r = inr EmptyBytecode
  /\ runs (emitted r) = [] /\ paths (emitted r) = [] /\ files r = fs.
Proof.
  intros Ha Hb Ht. cbn zeta.
  assert (negb (truthy (default (PyStr "") (d !! "bytecode")))
          || eq_str (default (PyStr "") (d !! "bytecode")) "0x" = true) as He
    by (rewrite Hb; cbn; by rewrite Ht).
  by rewrite (analyze_empty env contract_name d fs Ha He).
Qed.

Lemma falsy_bytecode_is_empty_witness :
  let env := Scenario.world (Edge.artifact_with PyNone) Hangs in
  value (analyze_contract env "MOEToken" ∅) = inr EmptyBytecode
  /\ runs (emitted (analyze_contract env "MOEToken" ∅)) = [].
Proof.
  intros env.
  destruct (falsy_bytecode_is_empty env "MOEToken"
              (<["bytecode" := PyNone]> ∅) PyNone ∅)
    as (Hv & Hr & _); [reflexivity | reflexivity | reflexivity | ].
  split; [exact Hv | exact Hr].
Defined.

(** X6: when [subprocess.run] raises an exception that is neither
    [TimeoutExpired] nor [FileNotFoundError], the outcome is [RuntimeError]
    with that exception: its text is printed, [None] is returned, and the
    scratch file is gone. *)
Theorem other_exception_is_runtime_error env contract_name d bc fs e :
  artifacts env !! artifact_path contract_name = Some (inr (PyDict d)) ->
  d !! "bytecode" = Some (PyStr bc) ->
  bc <> "" -> bc <> "0x" ->
  (tool env (command (PyStr bc) (default (PyStr "") (d !! "deployedBytecode")))
        (<[temp_file contract_name := bc]> fs)).1 = Fails e ->
  exn_cls e <> TimeoutExpired ->
  exn_cls e <> FileNotFoundError ->
  let r := analyze_contract env contract_name fs in
  value r = inr (RuntimeError e)
  /\ ("❌ 运行Mythril时出错: " ++ exn_msg e) ∈ printed (emitted r)
  /\ returned (RuntimeError e) = None
  /\ files r !! temp_file contract_name = None.
Proof.
  intros Ha Hb Hne H0x Htool Ht Hf. cbn zeta.
  rewrite (analyze_invoked env contract_name d bc fs Ha Hb Hne H0x).
  rewrite Htool. cbn [value files emitted].
  assert (verdict (Fails e) = RuntimeError e) as Hv
    by (destruct e as [[] msg]; cbn in *; congruence).
  rewrite Hv. split; [done|].
  split; [|split; [done | by rewrite lookup_delete_eq]].
  rewrite !printed_app, printed_invocation, Hv. cbn [said printed].
  rewrite !elem_of_app, !elem_of_cons. auto 10.
Qed.

Lemma other_exception_is_runtime_error_witness :
  let env := Scenario.world (Scenario.artifact "0x6080" "0x6080")
                            Scenario.not_executable in
  value (analyze_contract env "MOEToken" ∅)
  = inr (RuntimeError
           (Exn PermissionError "[Errno 13] Permission denied: 'myth'"))
  /\ files (analyze_contract env "MOEToken" ∅) !! temp_file "MOEToken" = None.
Proof.
  intros env.
  destruct (other_exception_is_runtime_error env "MOEToken"
              (<["bytecode" := PyStr "0x6080"]>
                 (<["deployedBytecode" := PyStr "0x6080"]> ∅))
              "0x6080" ∅
              (Exn PermissionError "[Errno 13] Permission denied: 'myth'"))
    as (Hv & _ & _ & Hf);
    [reflexivity | reflexivity | discriminate | discriminate
    | reflexivity | discriminate | discriminate | ].
  split; [exact Hv | exact Hf].
Defined.

(** X7: an artifact that loads but is not a JSON object makes
    [artifact.get] raise [AttributeError] outside any [try]: the analysis
    does not return, and neither does the loop, which never reaches the
    contracts that follow. *)
Theorem non_object_artifact_raises env contract_name artifact fs rest results :
  artifacts env !! artifact_path contract_name = Some (inr artifact) ->
  (forall d, artifact <> PyDict d) ->
  let e := Exn AttributeError
             ("'" ++ type_name artifact ++ "' object has no attribute 'get'") in
  analyze_contract env contract_name fs = MkRun (inl e) fs (banner contract_name)
  /\ analyze_all env (contract_name :: rest) results fs
     = MkRun (inl e) fs (banner contract_name).
Proof.
  intros Ha Hnd. cbn zeta.
  pose proof (analyze_not_an_object env contract_name artifact fs Ha Hnd) as Hr.
  split; [exact Hr|].
  cbn [analyze_all]. by rewrite (bind_raised _ _ _ _ _ _ Hr).
Qed.

Lemma non_object_artifact_raises_witness :
  let env := Scenario.world (PyList []) Hangs in
  value (analyze_all env CONTRACTS [] ∅)
  = inl (Exn AttributeError "'list' object has no attribute 'get'").
Proof.
  intros env.
  destruct (non_object_artifact_raises env "MOEToken" (PyList []) ∅
              ["DepositContract"; "VestingWalletFactory";
               "StageBasedVestingWallet"] [])
    as [_ Hloop]; [reflexivity | discriminate | ].
  unfold CONTRACTS. rewrite Hloop. reflexivity.
Defined.

(** X8: a [bytecode] field that has truth but is not a string (a number,
    [true], a non-empty list or object) passes the test of line 46 and makes
    [f.write] raise [TypeError] at line 53, before the [try] block: the
    analysis does not return, nothing is run, and the scratch file stays
    behind, empty. *)
Theorem non_string_bytecode_leaves_scratch_file env contract_name d v fs :
  artifacts env !! artifact_path contract_name = Some (inr (PyDict d)) ->
  d !! "bytecode" = Some v ->
  truthy v = true ->
  (forall s, v <> PyStr s) ->
  let r := analyze_contract env contract_name fs in
  value r = inl (Exn TypeError
                   ("write() argument must be str, not " ++ type_name v))
  /\ files r !! temp_file contract_name = Some ""
  /\ runs (emitted r) = []
  /\ ERemove (temp_file contract_name) ∉ emitted r.
Proof.
  intros Ha Hb Ht Hns. cbn zeta.
  rewrite (analyze_not_a_string env contract_name d v fs Ha Hb Ht Hns).
  cbn [value files emitted].
  split; [done|]. split; [by rewrite lookup_insert_eq|]. split; [done|].
  rewrite elem_of_app. intros [Hin|Hin].
  - unfold banner in Hin.
    repeat (apply elem_of_cons in Hin as [Hin|Hin]; [discriminate Hin|]).
    by apply elem_of_nil in Hin.
  - apply elem_of_cons in Hin as [Hin|Hin]; [discriminate Hin|].
    by apply elem_of_nil in Hin.
Qed.

Lemma non_string_bytecode_leaves_scratch_file_witness :
  let env := Scenario.world (Edge.artifact_with (PyInt 5)) Hangs in
  value (analyze_contract env "MOEToken" ∅)
  = inl (Exn TypeError "write() argument must be str, not int")
  /\ files (analyze_contract env "MOEToken" ∅) !! temp_file "MOEToken"
     = Some "".
Proof.
  intros env.
  destruct (non_string_bytecode_leaves_scratch_file env "MOEToken"
              (<["bytecode" := PyInt 5]> ∅) (PyInt 5) ∅)
    as (Hv & Hf & _); [reflexivity | reflexivity | reflexivity | discriminate | ].
  split; [exact Hv | exact Hf].
Defined.




Lemma report_rewritten_in_full_witness :
  let env := Scenario.world (Scenario.artifact "0x6080" "0x")
                            (Exits 5 "No issues were detected." "" 0) in
  files (main env (<[output_file := "the report of an older run"]> ∅))
    !! output_file
  = Some (report_text
            [("MOEToken", Some "No issues found"); ("DepositContract", None);
             ("VestingWalletFactory", None);
             ("StageBasedVestingWallet", None)]).
Proof.
  intros env.
  apply (report_rewritten_in_full env CONTRACTS).
  - repeat constructor; vm_compute; exact I.
  - apply (bool_decide_unpack _). vm_compute. exact I.
Defined.

(** X12: the only files that a run opens, writes or removes are the
    scratch files of the contracts of its list and the report. *)
Theorem run_touches_scratch_files_and_report_only env contracts fs :
  Forall (fun path =>
            path = output_file
            \/ exists c, c ∈ contracts /\ path = temp_file c)
         (paths (emitted (main_with env contracts fs))).
Proof.
  apply Forall_forall. intros path (ev & Hev & Ht)%list_elem_of_omap.
  destruct (main_events env contracts fs ev Hev)
    as [(c & fs' & Hc & Hin) | [[line ->] | Hout]].
  - right. exists c. split; [done|].
    pose proof (analysis_paths env c fs') as Hall.
    rewrite Forall_forall in Hall. symmetry. apply Hall.
    apply list_elem_of_omap. by exists ev.
  - discriminate Ht.
  - left. congruence.
Qed.


(** X14: every command line that a run hands to [subprocess.run] carries,
    after [--bin-runtime], a payload that has truth and is not [0x]: the
    analyzer is never started on an empty bytecode. *)
Theorem analyzer_never_started_on_empty_payload env contracts fs :
  Forall (fun cmd =>
            exists payload,
              after_flag "--bin-runtime" cmd = Some payload
              /\ truthy payload = true /\ payload <> PyStr "0x")
         (runs (emitted (main_with env contracts fs))).
Proof.
  apply Forall_forall. intros cmd Hcmd%runs_elem.
  destruct (main_events env contracts fs _ Hcmd)
    as [(c & fs' & _ & Hin) | [[line Heq] | Hout]];
    [|discriminate Heq | discriminate Hout].
  pose proof (analysis_payloads env c fs') as Hall.
  rewrite Forall_forall in Hall. apply Hall. by apply runs_elem.
Qed.

(** X15: a line of the summary holds the whole name of the contract, never
    cut; the name is filled with spaces up to 30 code points, so the status
    starts at the same column for every name of at most 30 code points. *)
Theorem summary_line_width contract result :
  Str.len (summary_line contract result)
  = Nat.max 30 (Str.len contract) + 1 + Str.len (status result)
  /\ String.prefix contract (summary_line contract result) = true.
Proof.
  unfold summary_line, Str.ljust. split.
  - rewrite !len_app, len_spaces. cbn [Str.len Str.continuation]. cbn. lia.
  - apply StrFacts.prefix_iff. eexists. by rewrite StrFacts.app_assoc.
Qed.

(** The keys of the results of a loop that returns. *)
Lemma loop_results env contracts results0 fs results :
  value (analyze_all env contracts results0 fs) = inr results ->
  NoDup results0.*1 ->
  NoDup results.*1
  /\ forall c, c ∈ results.*1 <-> c ∈ results0.*1 \/ c ∈ contracts.
Proof.
  revert results0 fs.
  induction contracts as [|k rest IH]; intros results0 fs Hv Hnd.
  - cbn in Hv. injection Hv as <-. split; [done|].
    intros c. rewrite elem_of_nil. tauto.
  - destruct (analyze_contract env k fs) as [[e|o] fs1 evs] eqn:Hr.
    + cbn [analyze_all] in Hv. rewrite (bind_raised _ _ _ _ _ _ Hr) in Hv.
      discriminate Hv.
    + rewrite (analyze_all_step _ _ _ _ _ _ _ _ Hr) in Hv. cbn [value] in Hv.
      destruct (IH _ _ Hv (dict_set_nodup k (returned o) results0 Hnd))
        as [Hnd' Hkeys].
      split; [done|]. intros c. rewrite Hkeys, dict_set_elem, elem_of_cons.
      tauto.
Qed.

(** X16: when the loop of [main] returns, its results hold exactly one
    entry for each contract of the list, also when the list names a
    contract more than once. *)
Theorem results_hold_one_entry_per_contract env contracts fs results :
  value (analyze_all env contracts [] fs) = inr results ->
  NoDup results.*1 /\ forall c, c ∈ results.*1 <-> c ∈ contracts.
Proof.
  intros Hv.
  destruct (loop_results env contracts [] fs results Hv) as [Hnd Hkeys];
    [constructor|].
  split; [done|]. intros c. rewrite Hkeys. cbn. rewrite elem_of_nil. tauto.
Qed.

Lemma results_hold_one_entry_per_contract_witness :
  let env := Scenario.world (Scenario.artifact "0x6080" "0x") Hangs in
  NoDup [("MOEToken", Some "Timeout"); ("DepositContract", None)].*1.
Proof.
  intros env.
  apply (results_hold_one_entry_per_contract env
           ["MOEToken"; "DepositContract"; "MOEToken"] ∅).
  reflexivity.
Defined.

(** X17: the [finally] block removes the scratch file only if it is still
    there: when the analyzer has removed it itself, [os.remove] is not
    called, and the analysis returns its outcome all the same. *)
Theorem cleanup_skips_a_file_already_gone env contract_name d bc fs :
  artifacts env !! artifact_path contract_name = Some (inr (PyDict d)) ->
  d !! "bytecode" = Some (PyStr bc) ->
  bc <> "" -> bc <> "0x" ->
  let tmp := temp_file contract_name in
  let cmd := command (PyStr bc) (default (PyStr "") (d !! "deployedBytecode")) in
  let answer := tool env cmd (<[tmp := bc]> fs) in
  answer.2 !! tmp = None ->
  let r := analyze_contract env contract_name fs in
  value r = inr (verdict answer.1)
  /\ paths (emitted r) = [tmp; tmp]
  /\ files r = answer.2.
Proof.
  intros Ha Hb Hne H0x tmp cmd answer Hgone. cbn zeta.
  rewrite (analyze_invoked env contract_name d bc fs Ha Hb Hne H0x).
  fold tmp cmd answer. cbn [value files emitted].
  split; [done|]. split; [|by apply delete_id].
  rewrite !paths_app, paths_banner, paths_invocation, paths_removed.
  rewrite bool_decide_false; [done|].
  rewrite Hgone. by intros [? ?].
Qed.

Lemma cleanup_skips_a_file_already_gone_witness :
  value (analyze_contract Edge.tidy_world "MOEToken" ∅) = inr Clean
  /\ paths (emitted (analyze_contract Edge.tidy_world "MOEToken" ∅))
     = [temp_file "MOEToken"; temp_file "MOEToken"].
Proof.
  destruct (cleanup_skips_a_file_already_gone Edge.tidy_world "MOEToken"
              (<["bytecode" := PyStr "0x6080"]>
                 (<["deployedBytecode" := PyStr "0x"]> ∅))
              "0x6080" ∅)
    as (Hv & Hp & _);
    [reflexivity | reflexivity | discriminate | discriminate | reflexivity | ].
  split; [exact Hv | exact Hp].
Defined.
